(** * TLS certificate live-reload in [src/main.ts]

    A shallow embedding of [bootstrap] (src/src/main.ts) and of the Node.js
    event loop it runs on, followed by the properties of the hot-reload
    pipeline: debouncing, failure atomicity, logging and the start-up gates.

    Conventions.
    - Time is [Z], in milliseconds ([Date.now()]).
    - A [Buffer] is a list of bytes; a file system is a finite map from
      absolute paths to files.
    - JavaScript effects (exceptions, [process.exit], the console, timers,
      file reads, the listener's secure context) are threaded through the
      monad [M], a state monad over [Process] with three completions.
    - What the program cannot decide itself (whether the TLS stack accepts a
      pair, whether [fs.watch] throws, whether the server object has a
      [setSecureContext] method, whether [listen] succeeds) is an oracle of
      the [Host] record.
    - Framework wiring that has no bearing on the TLS pipeline
      ([setGlobalPrefix], [useGlobalPipes], [enableCors], [useContainer],
      [initEccLib], the SIGINT/SIGTERM handlers) is left out. *)

From stdpp Require Import base option list strings gmap.
From Stdlib Require Import ZArith Ascii String Lia.
From Stdlib.Strings Require Import Byte.

Local Open Scope Z_scope.

(** ** Data *)

Definition Buffer := list Byte.byte.

(** A thrown JavaScript error: its [code] (ENOENT, EACCES, ...) and message. *)
Record Error := mkError { code : string; message : string }.

(** What sits at a path: a file the process may read, or one it may not
    (permissions, a directory, ...). A missing file is an absent key. *)
Inductive File :=
| Readable (content : Buffer)
| Unreadable.

(** The object returned by [app.getHttpServer()]. The active credential set
    of an HTTPS listener is the pair it completes new handshakes with. *)
Inductive Server :=
| NoServer
| Http
| Https (key cert : Buffer).

Definition activePair (s : Server) : option (Buffer * Buffer) :=
  match s with
  | Https k c => Some (k, c)
  | _ => None
  end.

(** Console output. A line is a list of fragments so that the timestamp of
    [new Date().toISOString()] and a printed error object stay visible. *)
Inductive Level := LLog | LError | LWarn.

Inductive Frag :=
| Text (s : string)
| IsoTime (t : Z)
| Thrown (e : Error).

Record LogLine := mkLine { level : Level; frags : list Frag }.

Definition isIsoTime (f : Frag) : bool :=
  match f with IsoTime _ => true | _ => false end.

Definition hasTimestamp (l : LogLine) : bool := existsb isIsoTime (frags l).

Definition isLevel (lv : Level) (l : LogLine) : bool :=
  match lv, level l with
  | LLog, LLog | LError, LError | LWarn, LWarn => true
  | _, _ => false
  end.

(** The journal records, next to the console, the calls whose arguments the
    claims talk about: timer callbacks starting, file reads, and calls of
    [server.setSecureContext]. *)
Inductive Event :=
| Fired (h : nat) (at_ : Z)
| Read (p : string) (r : Error + Buffer)
| Install (k c : Buffer) (ok : bool).

(** The host: environment variables and the oracles of the platform. *)
Record Host := mkHost {
  API_PORT : option string;
  API_SECURE : option string;
  cwd : string;
  (** [Some e]: [tls.createSecureContext] rejects the pair and throws [e]. *)
  rejects : Buffer -> Buffer -> option Error;
  (** [Some e]: [fs.watch] on this path throws [e]. *)
  watchError : string -> option Error;
  (** [typeof server?.setSecureContext === 'function'] *)
  dynamicInstall : bool;
  (** the outcome of [app.listen]: an error, or the bound address *)
  listenResult : Error + string
}.

(** The mutable state of the process and of the world it observes. *)
Record Process := mkProcess {
  clock : Z;
  fs : gmap string File;
  server : Server;
  (** armed timeouts, oldest first: handle and due time *)
  timers : list (nat * Z);
  nextHandle : nat;
  (** the closure variable [reloadTimer]; it keeps the handle of a timeout
      that has already fired, as in the source *)
  reloadTimer : option nat;
  (** paths on which [scheduleReload] is registered as an [fs.watch] listener *)
  watchers : list string;
  console : list LogLine;
  journal : list Event
}.

Definition initial (t0 : Z) (files : gmap string File) : Process :=
  mkProcess t0 files NoServer [] 0 None [] [] [].

Definition with_clock (f : Z -> Z) (p : Process) : Process :=
  mkProcess (f (clock p)) (fs p) (server p) (timers p) (nextHandle p)
            (reloadTimer p) (watchers p) (console p) (journal p).
Definition with_fs (f : gmap string File -> gmap string File) (p : Process) : Process :=
  mkProcess (clock p) (f (fs p)) (server p) (timers p) (nextHandle p)
            (reloadTimer p) (watchers p) (console p) (journal p).
Definition with_server (s : Server) (p : Process) : Process :=
  mkProcess (clock p) (fs p) s (timers p) (nextHandle p)
            (reloadTimer p) (watchers p) (console p) (journal p).
Definition with_timers (f : list (nat * Z) -> list (nat * Z)) (p : Process) : Process :=
  mkProcess (clock p) (fs p) (server p) (f (timers p)) (nextHandle p)
            (reloadTimer p) (watchers p) (console p) (journal p).
Definition with_nextHandle (n : nat) (p : Process) : Process :=
  mkProcess (clock p) (fs p) (server p) (timers p) n
            (reloadTimer p) (watchers p) (console p) (journal p).
Definition with_reloadTimer (r : option nat) (p : Process) : Process :=
  mkProcess (clock p) (fs p) (server p) (timers p) (nextHandle p)
            r (watchers p) (console p) (journal p).
Definition with_watchers (f : list string -> list string) (p : Process) : Process :=
  mkProcess (clock p) (fs p) (server p) (timers p) (nextHandle p)
            (reloadTimer p) (f (watchers p)) (console p) (journal p).
Definition with_console (f : list LogLine -> list LogLine) (p : Process) : Process :=
  mkProcess (clock p) (fs p) (server p) (timers p) (nextHandle p)
            (reloadTimer p) (watchers p) (f (console p)) (journal p).
Definition with_journal (f : list Event -> list Event) (p : Process) : Process :=
  mkProcess (clock p) (fs p) (server p) (timers p) (nextHandle p)
            (reloadTimer p) (watchers p) (console p) (f (journal p)).

(** ** The effect monad *)

Inductive Completion (A : Type) :=
| Normal (a : A)
| Throw (e : Error)
| Exit (status : Z).
Arguments Normal {A} a.
Arguments Throw {A} e.
Arguments Exit {A} status.

Definition M (A : Type) : Type := Process -> Completion A * Process.

Definition ret {A} (a : A) : M A := fun p => (Normal a, p).

Definition bind {A B} (m : M A) (k : A -> M B) : M B :=
  fun p =>
    match m p with
    | (Normal a, p') => k a p'
    | (Throw e, p') => (Throw e, p')
    | (Exit n, p') => (Exit n, p')
    end.

Definition throw {A} (e : Error) : M A := fun p => (Throw e, p).

Definition exit {A} (n : Z) : M A := fun p => (Exit n, p).

(** [try { body } catch (e) { handler e }] *)
Definition try_catch {A} (body : M A) (handler : Error -> M A) : M A :=
  fun p =>
    match body p with
    | (Throw e, p') => handler e p'
    | r => r
    end.

Definition gets {A} (f : Process -> A) : M A := fun p => (Normal (f p), p).

Definition modify (f : Process -> Process) : M unit := fun p => (Normal tt, f p).

Declare Scope js_scope.
Delimit Scope js_scope with js.
Notation "x <- m ;; k" := (bind m (fun x => k))
  (at level 100, m at next level, k at level 200, right associativity) : js_scope.
Notation "m ;; k" := (bind m (fun _ => k))
  (at level 100, k at level 200, right associativity) : js_scope.
Local Open Scope js_scope.

Fixpoint forEach {A} (l : list A) (f : A -> M unit) : M unit :=
  match l with
  | [] => ret tt
  | x :: r => f x ;; forEach r f
  end.

(** ** Strings and paths *)

(** [String.prototype.toLowerCase] on the ASCII range. No character outside
    it lowercases to one of [t], [r], [u], [e], so the comparison with
    ["true"] is the same as in JavaScript. *)
Definition lowerAscii (c : ascii) : ascii :=
  let n := nat_of_ascii c in
  if (Nat.leb 65 n && Nat.leb n 90)%bool then ascii_of_nat (n + 32) else c.

Fixpoint toLowerCase (s : string) : string :=
  match s with
  | EmptyString => EmptyString
  | String c r => String (lowerAscii c) (toLowerCase r)
  end.

(** [path.join] on POSIX for segments without [.] or [..]: the segments
    joined by [/], runs of [/] collapsed. *)
Fixpoint collapseSlashes (s : string) : string :=
  match s with
  | String "/" (String "/" _ as r) => collapseSlashes r
  | String c r => String c (collapseSlashes r)
  | EmptyString => EmptyString
  end.

Definition path_join (segments : list string) : string :=
  collapseSlashes (String.concat "/" segments).

(** ** Primitives of the runtime *)

Definition ENOENT (p : string) : Error :=
  mkError "ENOENT" ("no such file or directory, open '" +:+ p +:+ "'").
Definition EACCES (p : string) : Error :=
  mkError "EACCES" ("permission denied, open '" +:+ p +:+ "'").

(** The outcome of reading a path in a file system. An empty file is read
    as the empty buffer. *)
Definition readResult (files : gmap string File) (p : string) : Error + Buffer :=
  match files !! p with
  | None => inl (ENOENT p)
  | Some Unreadable => inl (EACCES p)
  | Some (Readable b) => inr b
  end.

Definition readFileSync (p : string) : M Buffer :=
  fun s =>
    let r := readResult (fs s) p in
    let s' := with_journal (fun j => j ++ [Read p r]) s in
    match r with
    | inl e => (Throw e, s')
    | inr b => (Normal b, s')
    end.

Definition console_log (fr : list Frag) : M unit :=
  modify (with_console (fun c => c ++ [mkLine LLog fr])).
Definition console_error (fr : list Frag) : M unit :=
  modify (with_console (fun c => c ++ [mkLine LError fr])).
Definition console_warn (fr : list Frag) : M unit :=
  modify (with_console (fun c => c ++ [mkLine LWarn fr])).

(** [setTimeout(cb, delay)]: the only callback ever passed is the reload
    callback, so an armed timeout is its handle and its due time. *)
Definition setTimeout (delay : Z) : M nat :=
  fun s =>
    let h := nextHandle s in
    (Normal h,
     with_nextHandle (S h) (with_timers (fun ts => ts ++ [(h, clock s + delay)]) s)).

(** [clearTimeout(h)]: disarms [h]; no effect on a handle that has fired. *)
Definition clearTimeout (h : nat) : M unit :=
  modify (with_timers (filter (fun hd => hd.1 ≠ h))).

Section Program.

Context (host : Host).

(** [server.setSecureContext({ key, cert })]: the TLS stack builds the new
    context first and throws when it rejects the pair, in which case the
    listener keeps the context it had; otherwise the new pair replaces it
    in one assignment. *)
Definition setSecureContext (key cert : Buffer) : M unit :=
  fun s =>
    match rejects host key cert with
    | Some e => (Throw e, with_journal (fun j => j ++ [Install key cert false]) s)
    | None =>
        (Normal tt,
         with_server (Https key cert)
           (with_journal (fun j => j ++ [Install key cert true]) s))
    end.

(** [fs.watch(path, { persistent: true }, scheduleReload)] *)
Definition watch (p : string) : M unit :=
  match watchError host p with
  | Some e => throw e
  | None => modify (with_watchers (fun w => w ++ [p]))
  end.

(** [NestFactory.create(AppModule, new FastifyAdapter(options))]: the
    server gets the [https] options, if any. The constructor's own check of
    the start-up pair is not modelled: a statement that start-up completes
    takes it as a premise, or assumes the pair accepted. *)
Definition create (https : option (Buffer * Buffer)) : M unit :=
  modify (with_server match https with
                      | Some (k, c) => Https k c
                      | None => Http
                      end).

(** lines 60-66: the callback given to [app.listen] *)
Definition listenCallback (err : option Error) (address : string) : M unit :=
  match err with
  | Some e => console_error [Thrown e] ;; exit 1
  | None => console_log [Text "API listening on "; Text address]
  end.

(** [await app.listen(port, '0.0.0.0', callback)]: when the server cannot
    listen, NestJS rejects the promise and does not call the callback; when
    it listens, the callback is called without an error and with the bound
    address. *)
Definition listen (port : string) (callback : option Error -> string -> M unit) : M unit :=
  match listenResult host with
  | inl err => throw err
  | inr address => callback None address
  end.

(** ** The program *)

(** line 18 *)
Definition secure : bool :=
  bool_decide (toLowerCase <$> API_SECURE host = Some "true").

(** lines 19-21 *)
Definition currentDirectory : string := cwd host.
Definition keyPath : string := path_join [currentDirectory; "secrets"; "key.pem"]%string.
Definition certPath : string := path_join [currentDirectory; "secrets"; "cert.pem"]%string.

(** lines 82-83: the two reads of a reload attempt *)
Definition readPair : M (Buffer * Buffer) :=
  key <- readFileSync keyPath ;;
  cert <- readFileSync certPath ;;
  ret (key, cert).

(** lines 80-89: the callback given to [setTimeout] *)
Definition reload : M unit :=
  try_catch
    (kc <- readPair ;;
     setSecureContext kc.1 kc.2 ;;
     now <- gets clock ;;
     console_log [Text "[TLS] Reloaded certificate @ "; IsoTime now])
    (fun e => console_error [Text "[TLS] Failed to reload certificate:"; Thrown e]).

(** lines 77-90 *)
Definition scheduleReload : M unit :=
  t <- gets reloadTimer ;;
  match t with
  | Some h => clearTimeout h
  | None => ret tt
  end ;;
  h <- setTimeout 500 ;;
  modify (with_reloadTimer (Some h)).

(** lines 23-31 *)
Definition startupOptions : M (option (Buffer * Buffer)) :=
  if secure then
    key <- readFileSync keyPath ;;
    cert <- readFileSync certPath ;;
    ret (Some (key, cert))
  else ret None.

(** lines 69-103 *)
Definition attachHotReload : M unit :=
  if secure then
    if dynamicInstall host then
      try_catch
        (watch keyPath ;;
         watch certPath ;;
         console_log [Text "[TLS] Watching cert/key for changes"])
        (fun e => console_error [Text "[TLS] Failed to watch cert/key files:"; Thrown e])
    else
      console_warn [Text "[TLS] Dynamic cert reload not available (non-HTTPS server?)"]
  else ret tt.

(** lines 12-104 *)
Definition bootstrap : M unit :=
  match API_PORT host with
  | None =>
      console_error
        [Text "It appears your environment is not configured, create and populate an .env file."]
  | Some port =>
      options <- startupOptions ;;
      create options ;;
      listen port listenCallback ;;
      attachHotReload
  end.

(** ** The event loop *)

(** What reaches the watchers from the outside world: a notification on a
    path, alone or together with the change of the file that caused it.
    A change that no watcher is told of is not an input. *)
Inductive Input :=
| FsWrite (p : string) (f : option File)
| FsNotify (p : string).

Definition inputPath (i : Input) : string :=
  match i with FsWrite p _ | FsNotify p => p end.

(** A notification on [p] calls the listener of every watch on [p]. *)
Definition deliver (p : string) : M unit :=
  ws <- gets watchers ;;
  forEach ws (fun w => if bool_decide (w = p) then scheduleReload else ret tt).

Definition handle (i : Input) : M unit :=
  match i with
  | FsWrite p f => modify (with_fs (fun m => match f with
                                             | Some x => <[p := x]> m
                                             | None => delete p m
                                             end)) ;;
                   deliver p
  | FsNotify p => deliver p
  end.

(** A timeout that has come due: it is disarmed, the clock stands at its
    due time (or later), and its callback runs. *)
Definition fire (h : nat) (due : Z) : M unit :=
  modify (with_timers (filter (fun hd => hd.1 ≠ h))) ;;
  modify (with_clock (Z.max due)) ;;
  now <- gets clock ;;
  modify (with_journal (fun j => j ++ [Fired h now])) ;;
  reload.

Definition isDue (t : Z) (hd : nat * Z) : bool := hd.2 <=? t.

(** Let time pass until [t]: the timeouts due by then fire in the order
    they were armed (all delays are equal), then the clock reaches [t].
    The timers phase of the loop comes before the I/O callbacks, so a
    timeout due at [t] fires before an input stamped [t]. *)
Definition advance (t : Z) (p : Process) : Process :=
  with_clock (Z.max t)
    (foldl (fun q hd => (fire hd.1 hd.2 q).2) p (filter (isDue t) (timers p))).

Definition step (p : Process) (ti : Z * Input) : Process :=
  (handle ti.2 (advance ti.1 p)).2.

Definition run (trace : list (Z * Input)) (p : Process) : Process :=
  foldl step p trace.

(** Observations *)
Definition firedAt (e : Event) : option Z :=
  match e with Fired _ t => Some t | _ => None end.

Definition firings (p : Process) : list Z := omap firedAt (journal p).

End Program.

(** ** Observations on a run *)

(** The console lines of the program. *)
Definition unconfiguredLine : LogLine :=
  mkLine LError
    [Text "It appears your environment is not configured, create and populate an .env file."].
Definition listeningLine (address : string) : LogLine :=
  mkLine LLog [Text "API listening on "; Text address].
Definition watchingLine : LogLine :=
  mkLine LLog [Text "[TLS] Watching cert/key for changes"].
Definition watchFailedLine (e : Error) : LogLine :=
  mkLine LError [Text "[TLS] Failed to watch cert/key files:"; Thrown e].
Definition notAvailableLine : LogLine :=
  mkLine LWarn [Text "[TLS] Dynamic cert reload not available (non-HTTPS server?)"].
Definition failureLine (e : Error) : LogLine :=
  mkLine LError [Text "[TLS] Failed to reload certificate:"; Thrown e].
Definition successLine (now : Z) : LogLine :=
  mkLine LLog [Text "[TLS] Reloaded certificate @ "; IsoTime now].

(** A line written by the hot-reload block (lines 69-103). *)
Definition isTlsLine (l : LogLine) : bool :=
  match frags l with
  | Text s :: _ => String.prefix "[TLS]" s
  | _ => false
  end.

(** The state of a file, as the claims name it. *)
Definition isMissing (files : gmap string File) (p : string) : Prop := files !! p = None.
Definition isUnreadable (files : gmap string File) (p : string) : Prop :=
  files !! p = Some Unreadable.
Definition isEmpty (files : gmap string File) (p : string) : Prop :=
  files !! p = Some (Readable []).

(** The effect of a journal entry on the listener: only an accepted
    [setSecureContext] changes its credentials. *)
Definition installed (s : Server) (e : Event) : Server :=
  match e with
  | Install k c true => Https k c
  | _ => s
  end.

Definition successfulInstall (e : Event) : option (Buffer * Buffer) :=
  match e with
  | Install k c true => Some (k, c)
  | _ => None
  end.

(** The pair of the most recent accepted install among [evs], if any. *)
Definition lastInstalled (evs : list Event) : option (Buffer * Buffer) :=
  last (omap successfulInstall evs).

(** Every armed timeout is the one [reloadTimer] refers to. *)
Definition Owned (p : Process) : Prop :=
  forall hd, hd ∈ timers p -> reloadTimer p = Some hd.1.

(** Exactly one timeout is armed, due at [t], and [reloadTimer] holds it. *)
Definition armedAt (t : Z) (p : Process) : Prop :=
  exists h, timers p = [(h, t)] /\ reloadTimer p = Some h.

(** [q'] differs from [q] at most in the files, the timers and the handles. *)
Definition quiet (q q' : Process) : Prop :=
  clock q' = clock q /\ server q' = server q /\ watchers q' = watchers q /\
  console q' = console q /\ journal q' = journal q.

(** Signal times that follow [t], each less than the quiet interval after
    the one before. *)
Fixpoint closelySpaced (t : Z) (ts : list Z) : Prop :=
  match ts with
  | [] => True
  | u :: r => (t <= u < t + 500) /\ closelySpaced u r
  end.

(** No timeout is pending, or exactly one and [reloadTimer] holds it. *)
Definition AtMostOne (p : Process) : Prop :=
  timers p = [] \/ exists d, armedAt d p.

(** The state in which the callback of timeout [h] starts. *)
Definition dueState (h : nat) (due : Z) (q : Process) : Process :=
  with_journal (fun j => j ++ [Fired h (Z.max due (clock q))])
    (with_clock (Z.max due)
       (with_timers (filter (fun hd : nat * Z => hd.1 ≠ h)) q)).

Section Shapes.

Context (host : Host).

(** The three ways the [try] block of the callback throws, with the error
    caught and the journal entries the attempt leaves. *)
Inductive AttemptFails (p : Process) : Error -> list Event -> Prop :=
| KeyReadFails e :
    readResult (fs p) (keyPath host) = inl e ->
    AttemptFails p e [Read (keyPath host) (inl e)]
| CertReadFails k e :
    readResult (fs p) (keyPath host) = inr k ->
    readResult (fs p) (certPath host) = inl e ->
    AttemptFails p e [Read (keyPath host) (inr k); Read (certPath host) (inl e)]
| InstallFails k c e :
    readResult (fs p) (keyPath host) = inr k ->
    readResult (fs p) (certPath host) = inr c ->
    rejects host k c = Some e ->
    AttemptFails p e [Read (keyPath host) (inr k); Read (certPath host) (inr c);
                      Install k c false].

Definition AttemptSucceeds (p : Process) (k c : Buffer) : Prop :=
  readResult (fs p) (keyPath host) = inr k /\
  readResult (fs p) (certPath host) = inr c /\
  rejects host k c = None.

(** Within the entries [blk] of one attempt, a call of [setSecureContext]
    has as arguments what the two reads of that attempt returned from the
    files as they were. *)
Definition freshInstall (files : gmap string File) (blk : list Event) : Prop :=
  forall k c ok, Install k c ok ∈ blk ->
    readResult files (keyPath host) = inr k /\
    readResult files (certPath host) = inr c /\
    blk = [Read (keyPath host) (inr k); Read (certPath host) (inr c); Install k c ok].

(** In a journal, every call of [setSecureContext] comes right after a
    timeout callback started and read first the key, then the cert, and
    it is called with the two buffers read. *)
Definition Fresh (j : list Event) : Prop :=
  forall pre k c ok post, j = pre ++ Install k c ok :: post ->
    exists pre' h t,
      pre = pre' ++ [Fired h t; Read (keyPath host) (inr k); Read (certPath host) (inr c)].

(** What one run of the timeout callback appends to the journal. *)
Inductive AttemptTrace : list Event -> Prop :=
| KeyUnread e : AttemptTrace [Read (keyPath host) (inl e)]
| CertUnread k e :
    AttemptTrace [Read (keyPath host) (inr k); Read (certPath host) (inl e)]
| Installing k c ok :
    AttemptTrace [Read (keyPath host) (inr k); Read (certPath host) (inr c);
                  Install k c ok].

Inductive Attempts : list Event -> Prop :=
| Attempts_nil : Attempts []
| Attempts_snoc evs h t blk :
    Attempts evs -> AttemptTrace blk -> Attempts (evs ++ Fired h t :: blk).

(** The state in which [attachHotReload] starts when start-up went through
    with TLS on. *)
Definition listeningSecure (p : Process) (k c : Buffer) (addr : string) : Process :=
  with_console (fun l => l ++ [listeningLine addr])
    (with_server (Https k c)
       (with_journal
          (fun j => j ++ [Read (keyPath host) (inr k); Read (certPath host) (inr c)]) p)).

End Shapes.

(** ** Sample hosts and states *)

Module Sample.

Definition B (s : string) : Buffer := list_byte_of_string s.
Definition keyFile : string := "/srv/pool/secrets/key.pem".
Definition certFile : string := "/srv/pool/secrets/cert.pem".

Definition files0 : gmap string File :=
  <[keyFile := Readable (B "KEY-0")]> (<[certFile := Readable (B "CERT-0")]> ∅).

Definition tlsHost : Host :=
  mkHost (Some "3334"%string) (Some "TRUE"%string) "/srv/pool"
         (fun _ _ => None) (fun _ => None) true (inr "https://0.0.0.0:3334"%string).

(** the inotify watch limit of the system *)
Definition ENOSPC (p : string) : Error :=
  mkError "ENOSPC"
          ("System limit for number of file watchers reached, watch '" +:+ p +:+ "'").

Definition certWatchFails : Host :=
  mkHost (Some "3334"%string) (Some "true"%string) "/srv/pool" (fun _ _ => None)
         (fun p => if bool_decide (p = certFile) then Some (ENOSPC p) else None)
         true (inr "https://0.0.0.0:3334"%string).

Definition keyWatchFails : Host :=
  mkHost (Some "3334"%string) (Some "true"%string) "/srv/pool" (fun _ _ => None)
         (fun p => if bool_decide (p = keyFile) then Some (ENOSPC p) else None)
         true (inr "https://0.0.0.0:3334"%string).

Definition noSetSecureContext : Host :=
  mkHost (Some "3334"%string) (Some "True"%string) "/srv/pool"
         (fun _ _ => None) (fun _ => None) false (inr "https://0.0.0.0:3334"%string).

Definition plainHost : Host :=
  mkHost (Some "3334"%string) (Some "yes"%string) "/srv/pool"
         (fun _ _ => None) (fun _ => None) true (inr "http://0.0.0.0:3334"%string).

Definition noStartLine : Error :=
  mkError "ERR_OSSL_PEM_NO_START_LINE" "error:0480006C:PEM routines::no start line".

(** a TLS stack that rejects an empty key or certificate *)
Definition strictHost : Host :=
  mkHost (Some "3334"%string) (Some "true"%string) "/srv/pool"
         (fun k c => match k, c with
                     | [], _ | _, [] => Some noStartLine
                     | _, _ => None
                     end)
         (fun _ => None) true (inr "https://0.0.0.0:3334"%string).

Definition running : Process := (bootstrap tlsHost (initial 0 files0)).2.

Definition burst : list (Z * Input) :=
  [(1200, FsWrite certFile (Some (Readable (B "CERT-1")))); (1650, FsNotify keyFile)].

(** a signal every 400ms, for ever *)
Definition stream (n : nat) : Z * Input := (1000 + 400 * Z.of_nat n, FsNotify keyFile).

(** the cert file is missing (an unfinished replace) *)
Definition certGone : Process := with_fs (delete certFile) running.

(** the key file has been truncated to zero bytes *)
Definition keyTruncated : Process := with_fs (<[keyFile := Readable []]>) running.

End Sample.

(** ** Files, lines and states of longer scenarios *)

(** What an input does to the files. *)
Definition written (i : Input) (m : gmap string File) : gmap string File :=
  match i with
  | FsWrite p (Some x) => <[p := x]> m
  | FsWrite p None => delete p m
  | FsNotify _ => m
  end.

(** The files once every input of a trace has happened. *)
Definition filesAfter (trace : list (Z * Input)) (m : gmap string File) : gmap string File :=
  foldl (fun m ti => written ti.2 m) m trace.

(** The line a reload attempt that started at [t] writes. *)
Definition reloadLineAt (t : Z) (l : LogLine) : Prop :=
  l = successLine t \/ exists e, l = failureLine e.

(** A pending timeout is the only one, [reloadTimer] holds it, and it
    comes due within the next 500ms. *)
Definition DueSoon (p : Process) : Prop :=
  timers p = [] \/ exists d, armedAt d p /\ clock p < d <= clock p + 500.

(** Input times that never run backwards, starting at or after [t]. *)
Fixpoint ascending (t : Z) (ts : list Z) : Prop :=
  match ts with
  | [] => True
  | u :: r => t <= u /\ ascending u r
  end.

(** No timeout is pending, or one that is due later at a time [Good]. *)
Definition PendingAt (Good : Z -> Prop) (p : Process) : Prop :=
  timers p = [] \/ exists d, armedAt d p /\ clock p < d /\ Good d.

Section Outcomes.

Context (host : Host).

(** The listener after [setSecureContext] was called with a pair. *)
Definition installOutcome (k c : Buffer) (s : Server) : Server :=
  match rejects host k c with
  | None => Https k c
  | Some _ => s
  end.

(** The journal entry of that call. *)
Definition installEntry (k c : Buffer) : Event :=
  Install k c match rejects host k c with None => true | Some _ => false end.

(** The line of an attempt at time [now] whose two reads succeeded. *)
Definition attemptLine (k c : Buffer) (now : Z) : LogLine :=
  match rejects host k c with
  | None => successLine now
  | Some e => failureLine e
  end.

(** Everything a secure start-up needs to reach the point where both files
    are watched. *)
Definition StartsWatching (files : gmap string File) (port : string)
           (k0 c0 : Buffer) (addr : string) : Prop :=
  API_PORT host = Some port /\
  secure host = true /\
  dynamicInstall host = true /\
  readResult files (keyPath host) = inr k0 /\
  readResult files (certPath host) = inr c0 /\
  listenResult host = inr addr /\
  watchError host (keyPath host) = None /\
  watchError host (certPath host) = None.

(** The process once such a start-up has completed. *)
Definition watching (t0 : Z) (files : gmap string File) (k0 c0 : Buffer)
           (addr : string) : Process :=
  with_console (fun l => l ++ [watchingLine])
    (with_watchers (fun w => w ++ [keyPath host; certPath host])
       (listeningSecure host (initial t0 files) k0 c0 addr)).

End Outcomes.

Module Scenario.

Import Sample.

(** An ACME client rewrites the key, then the cert 300ms later. *)
Definition rotation : list (Z * Input) :=
  [(1000, FsWrite keyFile (Some (Readable (B "KEY-1"))));
   (1300, FsWrite certFile (Some (Readable (B "CERT-1"))))].



Definition noEnv : Host :=
  mkHost None (Some "true"%string) "/srv/pool"
         (fun _ _ => None) (fun _ => None) true (inr "https://0.0.0.0:3334"%string).

(** only the key is in place *)
Definition keyOnly : gmap string File := <[keyFile := Readable (B "KEY-0")]> ∅.

End Scenario.

(** * Properties *)

Import Sample.

Ltac elem_cases H :=
  repeat (apply elem_of_cons in H as [H|H]; [try discriminate H|]);
  try (by apply elem_of_nil in H).

(** ** [toLowerCase] and the enablement flag *)

Example toLowerCase_TRUE : toLowerCase "TrUe" = "true"%string.
Proof. reflexivity. Qed.

Example secure_is_case_insensitive :
  secure tlsHost = true /\ secure noSetSecureContext = true /\ secure plainHost = false.
Proof. by vm_compute. Qed.

Example paths_under_cwd :
  keyPath tlsHost = keyFile /\ certPath tlsHost = certFile /\
  path_join ["/"; "secrets"; "key.pem"]%string = "/secrets/key.pem"%string.
Proof. by vm_compute. Qed.

(** ** The timer discipline of [scheduleReload] *)

Lemma armedAt_Owned t p : armedAt t p -> Owned p.
Proof.
  intros (h & Ht & Hr) hd Hin. rewrite Ht in Hin.
  apply list_elem_of_singleton in Hin. by subst.
Qed.

Lemma idle_Owned p : timers p = [] -> Owned p.
Proof. intros H hd Hin. rewrite H in Hin. by apply elem_of_nil in Hin. Qed.

Lemma quiet_refl q : quiet q q.
Proof. by repeat split. Qed.

Lemma quiet_trans a b c : quiet a b -> quiet b c -> quiet a c.
Proof. unfold quiet. intros (?&?&?&?&?) (?&?&?&?&?). repeat split; congruence. Qed.

(** [clearTimeout] on the handle that owns every armed timeout disarms all. *)
Lemma cleared_owned (l : list (nat * Z)) h :
  (forall hd, hd ∈ l -> Some h = Some hd.1) ->
  filter (fun hd : nat * Z => hd.1 ≠ h) l = [].
Proof.
  induction l as [|[h' d] l IH]; intros Hall; [done|].
  rewrite filter_cons.
  assert (Some h = Some h') as [= ->] by (apply (Hall (h', d)); left).
  rewrite decide_False; [|simpl; tauto].
  apply IH. intros hd Hin. apply Hall. by right.
Qed.

(** One call of [scheduleReload]: whatever was armed is cancelled and one
    fresh timeout is armed 500ms from now. *)
Lemma scheduleReload_spec q :
  Owned q ->
  exists q', scheduleReload q = (Normal tt, q') /\ quiet q q' /\ fs q' = fs q /\
             armedAt (clock q + 500) q'.
Proof.
  intros Hown. unfold scheduleReload, bind, gets, clearTimeout, setTimeout, modify, ret.
  destruct (reloadTimer q) as [h|] eqn:Hr; simpl.
  - eexists. split; [reflexivity|]. split; [by repeat split|]. split; [done|].
    exists (nextHandle q). simpl. split; [|done].
    rewrite cleared_owned; [done|]. intros hd Hin. rewrite <- Hr. by apply Hown.
  - eexists. split; [reflexivity|]. split; [by repeat split|]. split; [done|].
    exists (nextHandle q). simpl. split; [|done].
    destruct (timers q) as [|hd l] eqn:Ht; [done|].
    specialize (Hown hd). rewrite Ht in Hown.
    assert (None = Some hd.1) by (rewrite <- Hr; apply Hown; left). done.
Qed.

Lemma scheduleReload_quiet q :
  exists q', scheduleReload q = (Normal tt, q') /\ quiet q q'.
Proof.
  unfold scheduleReload, bind, gets, clearTimeout, setTimeout, modify, ret.
  destruct (reloadTimer q); simpl; eexists; (split; [reflexivity|]); by repeat split.
Qed.

Lemma forEach_scheduleReload (p : string) ws q :
  Owned q ->
  exists q',
    forEach ws (fun w => if bool_decide (w = p) then scheduleReload else ret tt) q
      = (Normal tt, q') /\
    quiet q q' /\ fs q' = fs q /\ Owned q' /\
    (p ∈ ws -> armedAt (clock q + 500) q') /\
    (p ∉ ws -> q' = q).
Proof.
  revert q. induction ws as [|w ws IH]; intros q Hown.
  - exists q. simpl. split; [done|]. split; [apply quiet_refl|].
    split; [done|]. split; [done|]. split; [|done].
    intros Hin. by apply elem_of_nil in Hin.
  - simpl. unfold bind. case_bool_decide as Hw.
    + subst w. destruct (scheduleReload_spec q Hown) as (q1 & -> & Hq1 & Hfs1 & Harm1).
      destruct (IH q1 (armedAt_Owned _ _ Harm1))
        as (q2 & -> & Hq2 & Hfs2 & Hown2 & Hin2 & Hnin2).
      exists q2. split; [done|]. split; [by eapply quiet_trans|].
      split; [congruence|]. split; [done|]. split.
      * intros _. destruct (decide (p ∈ ws)) as [Hin|Hnin].
        -- destruct Hq1 as (<- & _). by apply Hin2.
        -- by rewrite (Hnin2 Hnin).
      * intros Hnin. exfalso. apply Hnin. left.
    + unfold ret at 1.
      destruct (IH q Hown) as (q2 & -> & Hq2 & Hfs2 & Hown2 & Hin2 & Hnin2).
      exists q2. split; [done|]. split; [done|]. split; [done|]. split; [done|]. split.
      * intros Hin. apply Hin2. apply elem_of_cons in Hin as [?|?]; [congruence|done].
      * intros Hnin. apply Hnin2. intros ?. apply Hnin. by right.
Qed.

Lemma deliver_spec (p : string) q :
  Owned q ->
  exists q', deliver p q = (Normal tt, q') /\ quiet q q' /\ fs q' = fs q /\ Owned q' /\
             (p ∈ watchers q -> armedAt (clock q + 500) q') /\
             (p ∉ watchers q -> q' = q).
Proof.
  intros Hown. unfold deliver, bind, gets. by apply forEach_scheduleReload.
Qed.

Lemma deliver_quiet (p : string) q :
  exists q', deliver p q = (Normal tt, q') /\ quiet q q'.
Proof.
  unfold deliver, bind, gets. generalize (watchers q) as ws. intros ws. revert q.
  induction ws as [|w ws IH]; intros q.
  - exists q. split; [done|apply quiet_refl].
  - simpl. unfold bind. case_bool_decide.
    + destruct (scheduleReload_quiet q) as (q1 & -> & Hq1).
      destruct (IH q1) as (q2 & -> & Hq2). exists q2. split; [done|].
      by eapply quiet_trans.
    + unfold ret at 1. apply IH.
Qed.

(** A notification never throws; on a watched path it leaves exactly one
    timeout armed. *)
Lemma handle_spec i q :
  Owned q ->
  exists q', handle i q = (Normal tt, q') /\ quiet q q' /\ Owned q' /\
             (inputPath i ∈ watchers q -> armedAt (clock q + 500) q') /\
             (inputPath i ∉ watchers q ->
              timers q' = timers q /\ reloadTimer q' = reloadTimer q).
Proof.
  intros Hown. destruct i as [p f|p]; simpl.
  - unfold bind, modify.
    destruct (deliver_spec p
                (with_fs (fun m => match f with
                                   | Some x => <[p:=x]> m
                                   | None => delete p m
                                   end) q))
      as (q' & -> & Hq & _ & Hown' & Hin & Hnin); [exact Hown|].
    exists q'. split; [done|]. split; [exact Hq|]. split; [done|]. split; [exact Hin|].
    intros H. by rewrite (Hnin H).
  - destruct (deliver_spec p q Hown) as (q' & -> & Hq & _ & Hown' & Hin & Hnin).
    exists q'. split; [done|]. split; [exact Hq|]. split; [done|]. split; [exact Hin|].
    intros H. by rewrite (Hnin H).
Qed.

Lemma handle_quiet i q :
  exists q', handle i q = (Normal tt, q') /\ quiet q q'.
Proof.
  destruct i as [p f|p]; simpl; [|apply deliver_quiet].
  unfold bind, modify.
  destruct (deliver_quiet p
              (with_fs (fun m => match f with
                                 | Some x => <[p:=x]> m
                                 | None => delete p m
                                 end) q))
    as (q' & -> & Hq).
  by exists q'.
Qed.

(** With no watch registered, nothing the outside world does to the files
    reaches the process. *)
Lemma handle_unwatched i q :
  watchers q = [] ->
  exists q', handle i q = (Normal tt, q') /\
    clock q' = clock q /\ server q' = server q /\ timers q' = timers q /\
    watchers q' = [] /\ console q' = console q /\ journal q' = journal q.
Proof.
  intros Hw. destruct i as [p f|p]; unfold handle, deliver, bind, modify, gets; simpl;
    rewrite Hw; simpl; eexists; (split; [reflexivity|]); simpl; by repeat split.
Qed.

Lemma last_cons_default (t u : Z) (l : list Z) :
  default t (last (u :: l)) = default u (last l).
Proof. rewrite last_cons. by destruct (last l). Qed.

Lemma spaced_stream (s : nat -> Z * Input) :
  (forall n, (s n).1 <= (s (S n)).1 < (s n).1 + 500) ->
  forall m k, closelySpaced (s k).1 (s <$> seq (S k) m).*1.
Proof.
  intros Hs. induction m as [|m IH]; intros k; [done|].
  simpl. split; [apply Hs|apply IH].
Qed.

Lemma foldl_installed evs :
  forall s, foldl installed s evs = match lastInstalled evs with
                                    | Some (k, c) => Https k c
                                    | None => s
                                    end.
Proof.
  induction evs as [|e evs IH] using rev_ind; intros s; [done|].
  rewrite foldl_app. simpl. unfold lastInstalled in *. rewrite omap_app.
  destruct e as [h t|p r|k c [|]]; simpl; rewrite ?app_nil_r, ?last_snoc; try apply IH.
  done.
Qed.

Lemma readResult_inl files p :
  (exists e, readResult files p = inl e) <-> isMissing files p \/ isUnreadable files p.
Proof.
  unfold readResult, isMissing, isUnreadable.
  destruct (files !! p) as [[b|]|]; split; try (intros [e He]; done);
    try (intros [?|?]; done); eauto.
Qed.

Section Pipeline.

Context (host : Host).

(** ** One reload attempt (lines 80-89) *)

Lemma attempt_cases p :
  (exists e evs, AttemptFails host p e evs) \/ (exists k c, AttemptSucceeds host p k c).
Proof.
  destruct (readResult (fs p) (keyPath host)) as [e|k] eqn:Hk.
  { left. eexists _, _. by apply KeyReadFails. }
  destruct (readResult (fs p) (certPath host)) as [e|c] eqn:Hc.
  { left. eexists _, _. by eapply CertReadFails. }
  destruct (rejects host k c) as [e|] eqn:Hr.
  { left. eexists _, _. by eapply InstallFails. }
  right. by exists k, c.
Qed.

(** A failed attempt: the error is caught and logged, the listener is not
    touched. *)
Lemma reload_failed p e evs :
  AttemptFails host p e evs ->
  reload host p =
    (Normal tt,
     with_console (fun c => c ++ [failureLine e])
       (with_journal (fun j => j ++ evs) p)).
Proof.
  destruct 1 as [e Hk|k e Hk Hc|k c e Hk Hc Hr];
    unfold reload, try_catch, readPair, bind, readFileSync, setSecureContext;
    simpl; rewrite ?Hk; simpl; rewrite ?Hc; simpl; rewrite ?Hr; simpl;
    unfold console_error, modify, with_console, with_journal, failureLine; simpl;
    rewrite <- ?app_assoc; reflexivity.
Qed.

(** A successful attempt: both files read, the pair installed, one line
    logged with the time. *)
Lemma reload_succeeded p k c :
  AttemptSucceeds host p k c ->
  reload host p =
    (Normal tt,
     with_console (fun l => l ++ [successLine (clock p)])
       (with_server (Https k c)
          (with_journal
             (fun j => j ++ [Read (keyPath host) (inr k); Read (certPath host) (inr c);
                             Install k c true]) p))).
Proof.
  intros (Hk & Hc & Hr).
  unfold reload, try_catch, readPair, bind, readFileSync, setSecureContext.
  simpl. rewrite Hk. simpl. rewrite Hc. simpl. rewrite Hr. simpl.
  unfold console_log, modify, with_console, with_journal, with_server, successLine, gets.
  simpl. rewrite <- !app_assoc. reflexivity.
Qed.

(** The callback never throws and leaves clock, files, timers and watches
    as they were. *)
Lemma reload_block q :
  exists blk line,
    AttemptTrace host blk /\ freshInstall host (fs q) blk /\
    reload host q =
      (Normal tt,
       mkProcess (clock q) (fs q) (foldl installed (server q) blk) (timers q)
                 (nextHandle q) (reloadTimer q) (watchers q)
                 (console q ++ [line]) (journal q ++ blk)).
Proof.
  destruct (attempt_cases q) as [(e & evs & Hf)|(k & c & Hk & Hc & Hr)].
  - exists evs, (failureLine e). rewrite (reload_failed _ _ _ Hf).
    destruct Hf as [e Hk|k e Hk Hc|k c e Hk Hc Hr]; (split; [constructor|]);
      (split; [|done]); intros k' c' ok' Hin; elem_cases Hin;
      injection Hin as -> -> ->; done.
  - exists [Read (keyPath host) (inr k); Read (certPath host) (inr c); Install k c true],
      (successLine (clock q)).
    rewrite (reload_succeeded q k c) by done.
    split; [constructor|]. split; [|done]. intros k' c' ok' Hin. elem_cases Hin.
    injection Hin as -> -> ->. done.
Qed.

Lemma block_not_fired blk : AttemptTrace host blk -> omap firedAt blk = [].
Proof. by destruct 1. Qed.

(** ** Timeouts coming due *)

Lemma fire_eq h d q : fire host h d q = reload host (dueState h d q).
Proof. reflexivity. Qed.

Lemma fire_block h d q :
  exists blk line,
    AttemptTrace host blk /\
    journal (fire host h d q).2 = journal q ++ Fired h (Z.max d (clock q)) :: blk /\
    server (fire host h d q).2 = foldl installed (server q) blk /\
    console (fire host h d q).2 = console q ++ [line] /\
    watchers (fire host h d q).2 = watchers q /\
    clock (fire host h d q).2 = Z.max d (clock q) /\
    timers (fire host h d q).2 = filter (fun hd : nat * Z => hd.1 ≠ h) (timers q).
Proof.
  rewrite fire_eq. destruct (reload_block (dueState h d q)) as (blk & line & Hb & _ & ->).
  exists blk, line. simpl. split; [done|]. by rewrite <- app_assoc.
Qed.

Lemma advance_idle t q : timers q = [] -> advance host t q = with_clock (Z.max t) q.
Proof. intros H. unfold advance. by rewrite H. Qed.

Lemma advance_not_due t q h d :
  timers q = [(h, d)] -> t < d -> advance host t q = with_clock (Z.max t) q.
Proof.
  intros H Hlt. unfold advance. rewrite H, filter_cons, filter_nil.
  rewrite decide_False; [done|]. unfold isDue. simpl.
  intros Hd. apply Is_true_eq_true, Z.leb_le in Hd. lia.
Qed.

Lemma advance_due t q h d :
  timers q = [(h, d)] -> d <= t ->
  advance host t q = with_clock (Z.max t) (fire host h d q).2.
Proof.
  intros H Hle. unfold advance. rewrite H, filter_cons, filter_nil.
  rewrite decide_True; [done|]. unfold isDue. simpl.
  apply Is_true_eq_left, Z.leb_le. lia.
Qed.

(** An armed timeout does not fire before it is due. *)
Lemma advance_waits T q d :
  armedAt d q -> T < d ->
  journal (advance host T q) = journal q /\ armedAt d (advance host T q).
Proof.
  intros (h & Ht & Hr) Hlt. rewrite (advance_not_due T q h d) by done.
  split; [done|]. by exists h.
Qed.

(** Once due it fires, once, at its due time. *)
Lemma advance_fires T q d :
  armedAt d q -> clock q <= d -> d <= T ->
  let q' := advance host T q in
  timers q' = [] /\ clock q' = T /\ watchers q' = watchers q /\
  firings q' = firings q ++ [d] /\
  exists h evs, journal q' = journal q ++ Fired h d :: evs.
Proof.
  intros (h & Ht & Hr) Hclk Hle. cbv zeta. rewrite (advance_due T q h d) by done.
  destruct (fire_block h d q) as (blk & line & Hb & Hj & _ & _ & Hw & Hc & Htm).
  unfold firings. simpl. rewrite Hj, Hw, Hc, Htm, Ht.
  replace (Z.max d (clock q)) with d by lia.
  rewrite filter_cons, filter_nil, decide_False by (simpl; tauto).
  split; [done|]. split; [lia|]. split; [done|]. split; [|by exists h, blk].
  change (Fired h d :: blk) with ([Fired h d] ++ blk).
  by rewrite !omap_app, (block_not_fired blk Hb).
Qed.

(** ** Bursts *)

(** While signals keep coming less than 500ms apart, each one replaces the
    armed timeout by one due 500ms after itself, and nothing fires. *)
Lemma burst_rearms sigs :
  forall q t,
    armedAt (t + 500) q -> clock q = t ->
    Forall (fun ti : Z * Input => inputPath ti.2 ∈ watchers q) sigs ->
    closelySpaced t sigs.*1 ->
    let q' := run host sigs q in
    quiet (with_clock (fun _ => default t (last sigs.*1)) q) q' /\
    armedAt (default t (last sigs.*1) + 500) q'.
Proof.
  induction sigs as [|[u i] sigs IH]; intros q t Harm Hclk Hw Hsp.
  - simpl. split; [|done]. unfold quiet. simpl. by repeat split.
  - simpl in Hsp. destruct Hsp as [Hu Hsp].
    apply Forall_cons in Hw as [Hwi Hw]. simpl in Hwi.
    rewrite fmap_cons, last_cons_default.
    destruct Harm as (h & Ht & Hr).
    destruct (handle_spec i (with_clock (Z.max u) q)) as (q2 & Hh & Hq2 & Hown2 & Hin2 & _).
    { apply (armedAt_Owned (t + 500)). by exists h. }
    assert (step host q (u, i) = q2) as Hstep.
    { unfold step. simpl. rewrite (advance_not_due u q h (t + 500)) by (done || lia).
      by rewrite Hh. }
    change (run host ((u, i) :: sigs) q) with (run host sigs (step host q (u, i))).
    rewrite Hstep.
    destruct Hq2 as (Hc2 & Hs2 & Hw2 & Hco2 & Hj2). simpl in *.
    specialize (Hin2 Hwi).
    assert (clock q2 = u) as Hcu by lia.
    replace (Z.max u (clock q)) with u in Hin2 by lia.
    destruct (IH q2 u Hin2 Hcu) as [Hq Ha]; [by rewrite Hw2|done|].
    split; [|done].
    destruct Hq as (?&?&?&?&?). unfold quiet. simpl in *. repeat split; congruence.
Qed.

Lemma first_signal_arms p t1 i1 :
  timers p = [] -> clock p <= t1 -> inputPath i1 ∈ watchers p ->
  let q := step host p (t1, i1) in
  quiet (with_clock (fun _ => t1) p) q /\ armedAt (t1 + 500) q.
Proof.
  intros Hidle Hclk Hw. unfold step. simpl. rewrite advance_idle by done.
  destruct (handle_spec i1 (with_clock (Z.max t1) p)) as (q & Hh & Hq & _ & Hin & _).
  { by apply idle_Owned. }
  rewrite Hh. simpl. specialize (Hin Hw). simpl in Hin.
  replace (Z.max t1 (clock p)) with t1 in Hin by lia. split; [|done].
  destruct Hq as (?&?&?&?&?). unfold quiet. simpl in *. repeat split; (congruence || lia).
Qed.

Lemma burst_from_idle p t1 i1 rest :
  timers p = [] -> clock p <= t1 ->
  Forall (fun ti : Z * Input => inputPath ti.2 ∈ watchers p) ((t1, i1) :: rest) ->
  closelySpaced t1 rest.*1 ->
  let q := run host ((t1, i1) :: rest) p in
  quiet (with_clock (fun _ => default t1 (last rest.*1)) p) q /\
  armedAt (default t1 (last rest.*1) + 500) q.
Proof.
  intros Hidle Hclk Hw Hsp. apply Forall_cons in Hw as [Hw1 Hw]. simpl in Hw1.
  destruct (first_signal_arms p t1 i1 Hidle Hclk Hw1) as [Hq1 Ha1].
  destruct Hq1 as (Hc1 & Hs1 & Hw1' & Hco1 & Hj1). simpl in *.
  change (run host ((t1, i1) :: rest) p) with (run host rest (step host p (t1, i1))).
  destruct (burst_rearms rest (step host p (t1, i1)) t1 Ha1 Hc1) as [Hq Ha];
    [by rewrite Hw1'|done|].
  split; [|done].
  destruct Hq as (?&?&?&?&?). unfold quiet. simpl in *. repeat split; congruence.
Qed.

(** ** Start-up (lines 12-66) *)

Lemma bootstrap_unconfigured p :
  API_PORT host = None ->
  bootstrap host p = (Normal tt, with_console (fun l => l ++ [unconfiguredLine]) p).
Proof. intros H. unfold bootstrap. by rewrite H. Qed.

Lemma bootstrap_insecure p port :
  API_PORT host = Some port -> secure host = false ->
  bootstrap host p =
    match listenResult host with
    | inl err => (Throw err, with_server Http p)
    | inr addr => (Normal tt, with_console (fun l => l ++ [listeningLine addr])
                                           (with_server Http p))
    end.
Proof.
  intros Hp Hs. unfold bootstrap, startupOptions, attachHotReload, listen, listenCallback.
  rewrite Hp, Hs. destruct (listenResult host); reflexivity.
Qed.

Lemma bootstrap_secure p port k c addr :
  API_PORT host = Some port -> secure host = true ->
  readResult (fs p) (keyPath host) = inr k ->
  readResult (fs p) (certPath host) = inr c ->
  listenResult host = inr addr ->
  bootstrap host p = attachHotReload host (listeningSecure host p k c addr).
Proof.
  intros Hp Hs Hk Hc Hl. unfold bootstrap, startupOptions, listen, listenCallback.
  rewrite Hp, Hs, Hl. unfold bind, readFileSync. simpl. rewrite Hk. simpl. rewrite Hc.
  simpl. unfold listeningSecure, with_console, with_server, with_journal. simpl.
  by rewrite <- app_assoc.
Qed.

(** Every normal completion of a configured start-up is one of the two above. *)
Lemma bootstrap_normal_inv p port q :
  API_PORT host = Some port ->
  bootstrap host p = (Normal tt, q) ->
  (secure host = false /\ exists addr,
      listenResult host = inr addr /\
      q = with_console (fun l => l ++ [listeningLine addr]) (with_server Http p)) \/
  (secure host = true /\ exists k c addr,
      readResult (fs p) (keyPath host) = inr k /\
      readResult (fs p) (certPath host) = inr c /\
      listenResult host = inr addr /\
      attachHotReload host (listeningSecure host p k c addr) = (Normal tt, q)).
Proof.
  intros Hp Hb. destruct (secure host) eqn:Hs.
  - right. split; [done|].
    destruct (readResult (fs p) (keyPath host)) as [e|k] eqn:Hk.
    { exfalso. unfold bootstrap, startupOptions in Hb. rewrite Hp, Hs in Hb.
      unfold bind, readFileSync in Hb. simpl in Hb. rewrite Hk in Hb. done. }
    destruct (readResult (fs p) (certPath host)) as [e|c] eqn:Hc.
    { exfalso. unfold bootstrap, startupOptions in Hb. rewrite Hp, Hs in Hb.
      unfold bind, readFileSync in Hb. simpl in Hb. rewrite Hk in Hb. simpl in Hb.
      rewrite Hc in Hb. done. }
    destruct (listenResult host) as [e|addr] eqn:Hl.
    { exfalso. unfold bootstrap, startupOptions, listen, listenCallback in Hb. rewrite Hp, Hs, Hl in Hb.
      unfold bind, readFileSync in Hb. simpl in Hb. rewrite Hk in Hb. simpl in Hb.
      rewrite Hc in Hb. done. }
    exists k, c, addr. rewrite <- (bootstrap_secure p port) by done. done.
  - left. split; [done|]. rewrite (bootstrap_insecure p port) in Hb by done.
    destruct (listenResult host) as [e|addr]; [done|].
    exists addr. split; [done|]. by injection Hb.
Qed.

(** ** The four ways through the hot-reload block (lines 69-103) *)

Lemma attach_no_capability q :
  secure host = true -> dynamicInstall host = false ->
  attachHotReload host q = (Normal tt, with_console (fun l => l ++ [notAvailableLine]) q).
Proof. intros Hs Hd. unfold attachHotReload. by rewrite Hs, Hd. Qed.

Lemma attach_key_watch_fails q e :
  secure host = true -> dynamicInstall host = true ->
  watchError host (keyPath host) = Some e ->
  attachHotReload host q = (Normal tt, with_console (fun l => l ++ [watchFailedLine e]) q).
Proof.
  intros Hs Hd Hk. unfold attachHotReload, try_catch, bind, watch. by rewrite Hs, Hd, Hk.
Qed.

(** The watch on the key path stays registered when the one on the cert
    path throws. *)
Lemma attach_cert_watch_fails q e :
  secure host = true -> dynamicInstall host = true ->
  watchError host (keyPath host) = None ->
  watchError host (certPath host) = Some e ->
  attachHotReload host q =
    (Normal tt, with_console (fun l => l ++ [watchFailedLine e])
                  (with_watchers (fun w => w ++ [keyPath host]) q)).
Proof.
  intros Hs Hd Hk Hc. unfold attachHotReload, try_catch, bind, watch.
  by rewrite Hs, Hd, Hk, Hc.
Qed.

Lemma attach_watching q :
  secure host = true -> dynamicInstall host = true ->
  watchError host (keyPath host) = None ->
  watchError host (certPath host) = None ->
  attachHotReload host q =
    (Normal tt, with_console (fun l => l ++ [watchingLine])
                  (with_watchers (fun w => w ++ [keyPath host; certPath host]) q)).
Proof.
  intros Hs Hd Hk Hc. unfold attachHotReload, try_catch, bind, watch.
  rewrite Hs, Hd, Hk, Hc. unfold modify, console_log, modify, with_console, with_watchers.
  simpl. by rewrite <- app_assoc.
Qed.

Lemma attach_secure q :
  secure host = true ->
  exists line ws,
    attachHotReload host q = (Normal tt, (attachHotReload host q).2) /\
    isTlsLine line = true /\
    console (attachHotReload host q).2 = console q ++ [line] /\
    watchers (attachHotReload host q).2 = watchers q ++ ws /\
    server (attachHotReload host q).2 = server q /\
    timers (attachHotReload host q).2 = timers q /\
    journal (attachHotReload host q).2 = journal q.
Proof.
  intros Hs. destruct (dynamicInstall host) eqn:Hd.
  - destruct (watchError host (keyPath host)) as [e|] eqn:Hk.
    { exists (watchFailedLine e), []. rewrite (attach_key_watch_fails q e) by done.
      simpl. by rewrite app_nil_r. }
    destruct (watchError host (certPath host)) as [e|] eqn:Hc.
    { exists (watchFailedLine e), [keyPath host].
      by rewrite (attach_cert_watch_fails q e). }
    exists watchingLine, [keyPath host; certPath host].
    by rewrite (attach_watching q).
  - exists notAvailableLine, []. rewrite (attach_no_capability q) by done.
    simpl. by rewrite app_nil_r.
Qed.

(** ** A process without watches *)

Lemma inert_run trace :
  forall q, timers q = [] -> watchers q = [] ->
    let q' := run host trace q in
    timers q' = [] /\ watchers q' = [] /\ server q' = server q /\
    console q' = console q /\ journal q' = journal q.
Proof.
  induction trace as [|[t i] trace IH]; intros q Ht Hw; [done|].
  change (run host ((t, i) :: trace) q) with (run host trace (step host q (t, i))).
  destruct (handle_unwatched i (advance host t q))
    as (q1 & Hh & Hc1 & Hs1 & Ht1 & Hw1 & Hco1 & Hj1).
  { by rewrite advance_idle. }
  assert (step host q (t, i) = q1) as -> by (unfold step; simpl; by rewrite Hh).
  rewrite advance_idle in * by done. simpl in *.
  destruct (IH q1) as (?&?&?&?&?); [congruence|done|].
  cbv zeta. repeat split; congruence.
Qed.

Lemma inert_forever trace T q :
  timers q = [] -> watchers q = [] ->
  let q' := advance host T (run host trace q) in
  journal q' = journal q /\ firings q' = firings q /\ server q' = server q /\
  console q' = console q /\ watchers q' = [] /\ timers q' = [].
Proof.
  intros Ht Hw. destruct (inert_run trace q Ht Hw) as (Ht' & Hw' & Hs' & Hc' & Hj').
  cbv zeta. rewrite advance_idle by done. simpl. unfold firings. simpl.
  rewrite Hj'. by repeat split.
Qed.

(** ** The journal of a whole run *)

Lemma Attempts_app a b : Attempts host a -> Attempts host b -> Attempts host (a ++ b).
Proof.
  intros Ha Hb. induction Hb as [|evs h t blk Hevs IH Hblk].
  - by rewrite app_nil_r.
  - rewrite app_assoc. by constructor.
Qed.

Lemma Attempts_one h t blk : AttemptTrace host blk -> Attempts host (Fired h t :: blk).
Proof. intros H. apply (Attempts_snoc host [] h t blk); [constructor|done]. Qed.

Lemma fires_attempts (l : list (nat * Z)) :
  forall q,
    let q' := foldl (fun q hd => (fire host hd.1 hd.2 q).2) q l in
    exists evs, Attempts host evs /\ journal q' = journal q ++ evs /\
                server q' = foldl installed (server q) evs.
Proof.
  induction l as [|[h d] l IH]; intros q.
  { exists []. simpl. split; [constructor|]. by rewrite app_nil_r. }
  simpl. destruct (fire_block h d q) as (blk & line & Hb & Hj & Hs & _).
  destruct (IH (fire host h d q).2) as (evs & He & Hj' & Hs').
  exists ((Fired h (Z.max d (clock q)) :: blk) ++ evs).
  split; [apply Attempts_app; [by apply Attempts_one|done]|].
  split.
  - rewrite Hj', Hj. by rewrite <- app_assoc.
  - rewrite Hs', Hs, foldl_app. done.
Qed.

Lemma advance_attempts T q :
  exists evs, Attempts host evs /\ journal (advance host T q) = journal q ++ evs /\
              server (advance host T q) = foldl installed (server q) evs.
Proof.
  unfold advance. destruct (fires_attempts (filter (isDue T) (timers q)) q) as (evs & ?).
  by exists evs.
Qed.

Lemma run_attempts trace :
  forall q, exists evs,
    Attempts host evs /\ journal (run host trace q) = journal q ++ evs /\
    server (run host trace q) = foldl installed (server q) evs.
Proof.
  induction trace as [|[t i] trace IH]; intros q.
  { exists []. simpl. split; [constructor|]. by rewrite app_nil_r. }
  change (run host ((t, i) :: trace) q) with (run host trace (step host q (t, i))).
  destruct (advance_attempts t q) as (evs1 & He1 & Hj1 & Hs1).
  destruct (handle_quiet i (advance host t q)) as (q1 & Hh & _ & Hsq & _ & _ & Hjq).
  assert (step host q (t, i) = q1) as -> by (unfold step; simpl; by rewrite Hh).
  destruct (IH q1) as (evs2 & He2 & Hj2 & Hs2).
  exists (evs1 ++ evs2). split; [by apply Attempts_app|].
  split.
  - rewrite Hj2, Hjq, Hj1. by rewrite <- app_assoc.
  - rewrite Hs2, Hsq, Hs1, foldl_app. done.
Qed.

(** Whatever happens to the files and however long the process runs, its
    journal grows by whole attempts and the listener's credentials are
    those of the accepted installs. *)
Lemma history_attempts trace T q :
  exists evs,
    Attempts host evs /\ journal (advance host T (run host trace q)) = journal q ++ evs /\
    server (advance host T (run host trace q)) = foldl installed (server q) evs.
Proof.
  destruct (run_attempts trace q) as (evs1 & He1 & Hj1 & Hs1).
  destruct (advance_attempts T (run host trace q)) as (evs2 & He2 & Hj2 & Hs2).
  exists (evs1 ++ evs2). split; [by apply Attempts_app|]. split.
  - rewrite Hj2, Hj1. by rewrite <- app_assoc.
  - rewrite Hs2, Hs1, foldl_app. done.
Qed.

Lemma Fresh_no_install j :
  (forall k c ok, Install k c ok ∉ j) -> Fresh host j.
Proof.
  intros Hno pre k c ok post ->. exfalso. apply (Hno k c ok).
  apply elem_of_app. right. left.
Qed.

Lemma Fresh_snoc_block j h t blk :
  Fresh host j -> AttemptTrace host blk -> Fresh host (j ++ Fired h t :: blk).
Proof.
  intros HF Hb pre k c ok post Heq.
  apply app_eq_inv in Heq as [(m & Hj & Hm)|(m & Hpre & Hm)].
  - destruct m as [|x m]; [discriminate Hm|].
    injection Hm as <- _. by apply (HF pre k c ok m).
  - destruct Hb; repeat (destruct m as [|? m]; simplify_eq/=).
    by exists j, h, t.
Qed.

Lemma Fresh_attempts j evs :
  Fresh host j -> Attempts host evs -> Fresh host (j ++ evs).
Proof.
  intros HF He. induction He as [|evs h t blk He IH Hb].
  - by rewrite app_nil_r.
  - rewrite app_assoc. by apply Fresh_snoc_block.
Qed.

(** Start-up reads the two files and never calls [setSecureContext]. *)
Lemma bootstrap_reads_only p :
  (forall k c ok, Install k c ok ∉ journal p) ->
  forall k c ok, Install k c ok ∉ journal (bootstrap host p).2.
Proof.
  intros Hno k c ok. unfold bootstrap, startupOptions, attachHotReload, listen, listenCallback,
    try_catch, watch, bind, readFileSync.
  destruct (API_PORT host); [|apply Hno].
  destruct (secure host); simpl.
  - destruct (readResult (fs p) (keyPath host)) eqn:Hk; simpl;
      [intros Hin; apply elem_of_app in Hin as [Hin|Hin];
       [by apply Hno in Hin|elem_cases Hin]|].
    destruct (readResult (fs p) (certPath host)) eqn:Hc; simpl;
      [intros Hin; repeat (apply elem_of_app in Hin as [Hin|Hin]);
       [by apply Hno in Hin|elem_cases Hin|elem_cases Hin]|].
    destruct (listenResult host), (dynamicInstall host),
      (watchError host (keyPath host)), (watchError host (certPath host)); simpl;
      intros Hin; repeat (apply elem_of_app in Hin as [Hin|Hin]);
      solve [by apply Hno in Hin|elem_cases Hin].
  - destruct (listenResult host); simpl; apply Hno.
Qed.

(** ** At most one pending reload *)

Lemma advance_AtMostOne T q : AtMostOne q -> AtMostOne (advance host T q).
Proof.
  intros [Hidle|(d & h & Ht & Hr)].
  - left. by rewrite advance_idle.
  - destruct (Z_lt_le_dec T d) as [Hlt|Hle].
    + right. exists d. apply advance_waits; [by exists h|done].
    + left. rewrite (advance_due T q h d) by done.
      destruct (fire_block h d q) as (blk & line & _ & _ & _ & _ & _ & _ & Htm).
      simpl. rewrite Htm, Ht, filter_cons, filter_nil, decide_False by (simpl; tauto).
      done.
Qed.

Lemma handle_AtMostOne i q : AtMostOne q -> AtMostOne (handle i q).2.
Proof.
  intros Hq.
  assert (Owned q) as Hown.
  { destruct Hq as [?|(d & ?)]; [by apply idle_Owned|by apply (armedAt_Owned d)]. }
  destruct (handle_spec i q Hown) as (q' & -> & _ & _ & Hin & Hnin). simpl.
  destruct (decide (inputPath i ∈ watchers q)) as [Hw|Hw].
  - right. eexists. by apply Hin.
  - destruct (Hnin Hw) as [Ht Hr]. destruct Hq as [Hidle|(d & h & Htq & Hrq)].
    + left. congruence.
    + right. exists d, h. split; congruence.
Qed.

(** In every state the process reaches, at most one timeout is armed, and
    it is the one [reloadTimer] holds. *)
Lemma at_most_one_pending trace :
  forall q, AtMostOne q -> AtMostOne (run host trace q).
Proof.
  induction trace as [|[t i] trace IH]; intros q Hq; [done|].
  change (run host ((t, i) :: trace) q) with (run host trace (step host q (t, i))).
  apply IH. unfold step. simpl. by apply handle_AtMostOne, advance_AtMostOne.
Qed.

Lemma bootstrap_idle p : timers p = [] -> timers (bootstrap host p).2 = [].
Proof.
  intros Hidle. unfold bootstrap, startupOptions, attachHotReload, listen, listenCallback,
    try_catch, watch, bind, readFileSync.
  destruct (API_PORT host); [|done].
  destruct (secure host); simpl.
  - destruct (readResult (fs p) (keyPath host)); [done|]. simpl.
    destruct (readResult (fs p) (certPath host)); [done|]. simpl.
    by destruct (listenResult host), (dynamicInstall host),
      (watchError host (keyPath host)), (watchError host (certPath host)).
  - by destruct (listenResult host).
Qed.

Lemma reachable_AtMostOne t0 files trace T :
  AtMostOne (advance host T (run host trace (bootstrap host (initial t0 files)).2)).
Proof.
  apply advance_AtMostOne, at_most_one_pending. left. by apply bootstrap_idle.
Qed.

End Pipeline.

(** * The claims *)

(** ** Debouncing *)

(** C1, debounce collapse. A burst of N >= 1 change signals on watched
    paths, the first at [t1] in an idle process and each following one
    less than 500ms after the one before, makes the reload callback run
    exactly once: nothing fires during the burst or before 500ms have
    passed since the last signal, one timeout stays armed, due 500ms after
    the last signal, and by any later time [T] it has fired once, at that
    due time. *)
Theorem debounce_collapse (host : Host) (p : Process) (t1 : Z) (i1 : Input)
        (rest : list (Z * Input)) (T : Z) :
  timers p = [] ->
  clock p <= t1 ->
  Forall (fun ti : Z * Input => inputPath ti.2 ∈ watchers p) ((t1, i1) :: rest) ->
  closelySpaced t1 rest.*1 ->
  let tlast := default t1 (last rest.*1) in
  let q := run host ((t1, i1) :: rest) p in
  tlast + 500 <= T ->
  firings q = firings p /\
  (exists h, timers q = [(h, tlast + 500)]) /\
  (forall T', T' < tlast + 500 -> firings (advance host T' q) = firings p) /\
  firings (advance host T q) = firings p ++ [tlast + 500] /\
  timers (advance host T q) = [].
Proof.
  intros Hidle Hclk Hw Hsp tlast q HT.
  destruct (burst_from_idle host p t1 i1 rest Hidle Hclk Hw Hsp) as [Hq Ha].
  fold tlast in Hq, Ha. fold q in Hq, Ha.
  destruct Hq as (Hc & _ & _ & _ & Hj). simpl in Hc.
  assert (firings q = firings p) as Hf by (unfold firings; by rewrite Hj).
  split; [done|]. split.
  { destruct Ha as (h & Ht & _). by exists h. }
  split.
  { intros T' HT'. destruct (advance_waits host T' q _ Ha HT') as [HjT _].
    unfold firings. by rewrite HjT, Hj. }
  destruct (advance_fires host T q (tlast + 500) Ha) as (Ht & _ & _ & Hfire & _);
    [lia|done|].
  split; [by rewrite Hfire, Hf|done].
Qed.

Lemma debounce_collapse_witness :
  firings (run tlsHost ((1000, FsNotify keyFile) :: burst) running) = [] /\
  firings (advance tlsHost 3000 (run tlsHost ((1000, FsNotify keyFile) :: burst) running))
    = [2150].
Proof.
  destruct (debounce_collapse tlsHost running 1000 (FsNotify keyFile) burst 3000)
    as (H1 & _ & _ & H2 & _).
  - reflexivity.
  - vm_compute. discriminate.
  - vm_compute. repeat constructor.
  - vm_compute. repeat split; discriminate.
  - vm_compute. discriminate.
  - split; [exact H1|exact H2].
Defined.

(** C3, sustained-stream suppression. Along an endless stream of signals
    on watched paths in which every gap is less than 500ms, the reload
    callback has not run after any number [n] of signals, nor does it run
    in the 500ms after the latest one: no file is read, nothing is
    installed, and each signal finds the previous timeout still pending
    and replaces it. *)
Theorem sustained_stream_never_fires (host : Host) (p : Process) (s : nat -> Z * Input) :
  timers p = [] ->
  clock p <= (s 0%nat).1 ->
  (forall n, inputPath (s n).2 ∈ watchers p) ->
  (forall n, (s n).1 <= (s (S n)).1 < (s n).1 + 500) ->
  forall n,
    let q := run host (s <$> seq 0 n) p in
    firings q = firings p /\
    journal q = journal p /\
    server q = server p /\
    (forall T, T < clock q + 500 -> firings (advance host T q) = firings p).
Proof.
  intros Hidle Hclk Hw Hs [|n]; cbv zeta.
  { change (run host (s <$> seq 0 0) p) with p.
    split; [done|]. split; [done|]. split; [done|]. intros T _.
    by rewrite advance_idle. }
  change (s <$> seq 0 (S n)) with (s 0%nat :: (s <$> seq 1 n)).
  pose proof (spaced_stream s Hs n 0) as Hsp.
  pose proof (Hw 0%nat) as Hw0.
  destruct (s 0%nat) as [t1 i1].
  destruct (burst_from_idle host p t1 i1 (s <$> seq 1 n)) as [Hq Ha];
    [done|exact Hclk| |exact Hsp|].
  { apply Forall_cons. split; [exact Hw0|].
    apply Forall_fmap, Forall_forall. intros k _. apply Hw. }
  destruct Hq as (Hc & Hsv & _ & _ & Hj).
  change (clock (with_clock _ p)) with (default t1 (last (s <$> seq 1 n).*1)) in Hc.
  split; [unfold firings; by rewrite Hj|]. split; [done|]. split; [done|].
  intros T HT. destruct (advance_waits host T _ _ Ha) as [HjT _]; [lia|].
  unfold firings. by rewrite HjT, Hj.
Qed.

Lemma sustained_stream_never_fires_witness :
  firings (run tlsHost (stream <$> seq 0 25) running) = [].
Proof.
  refine (proj1 (sustained_stream_never_fires tlsHost running stream _ _ _ _ 25%nat)).
  - reflexivity.
  - vm_compute. discriminate.
  - intros n. vm_compute. constructor.
  - intros n. unfold stream. simpl. lia.
Defined.

(** C4, gap separation. Two signals on watched paths more than 500ms
    apart, the first in an idle process, make the reload callback run
    twice: once 500ms after the first signal, before the second is
    handled, and once 500ms after the second. *)
Theorem gap_separation (host : Host) (p : Process) (t1 t2 : Z) (i1 i2 : Input) (T : Z) :
  timers p = [] ->
  clock p <= t1 ->
  inputPath i1 ∈ watchers p ->
  inputPath i2 ∈ watchers p ->
  t1 + 500 < t2 ->
  t2 + 500 <= T ->
  firings (run host [(t1, i1); (t2, i2)] p) = firings p ++ [t1 + 500] /\
  firings (advance host T (run host [(t1, i1); (t2, i2)] p))
    = firings p ++ [t1 + 500; t2 + 500].
Proof.
  intros Hidle Hclk Hw1 Hw2 Hgap HT.
  destruct (first_signal_arms host p t1 i1 Hidle Hclk Hw1) as [Hq1 Ha1].
  set (q1 := step host p (t1, i1)) in *.
  destruct Hq1 as (Hc1 & _ & Hwq1 & _ & Hj1). simpl in Hc1.
  destruct (advance_fires host t2 q1 (t1 + 500) Ha1) as (Ht & Hc & Hwa & Hf & _);
    [lia|lia|].
  set (qa := advance host t2 q1) in *.
  destruct (handle_spec i2 qa) as (q2 & Hh & Hq2 & _ & Hin & _); [by apply idle_Owned|].
  assert (run host [(t1, i1); (t2, i2)] p = q2) as Hrun.
  { simpl. fold q1. unfold step. simpl. fold qa. by rewrite Hh. }
  rewrite Hrun. destruct Hq2 as (Hc2 & _ & _ & _ & Hj2).
  assert (firings q2 = firings p ++ [t1 + 500]) as Hf2.
  { unfold firings in *. rewrite Hj2, Hf. by rewrite Hj1. }
  split; [done|].
  assert (armedAt (t2 + 500) q2) as Ha2.
  { rewrite <- Hc. apply Hin. by rewrite Hwa, Hwq1. }
  destruct (advance_fires host T q2 (t2 + 500) Ha2) as (_ & _ & _ & HfT & _); [lia|done|].
  rewrite HfT, Hf2, <- app_assoc. done.
Qed.

Lemma gap_separation_witness :
  firings (advance tlsHost 5000
             (run tlsHost [(1000, FsNotify keyFile); (2000, FsNotify certFile)] running))
    = [1500; 2500].
Proof.
  refine (proj2 (gap_separation tlsHost running 1000 2000 (FsNotify keyFile)
                                (FsNotify certFile) 5000 _ _ _ _ _ _)).
  - reflexivity.
  - vm_compute. discriminate.
  - vm_compute. constructor.
  - vm_compute. repeat constructor.
  - reflexivity.
  - vm_compute. discriminate.
Defined.

(** ** Failure atomicity and the installed pair *)

(** C2, atomicity under failure. When a reload attempt fails, because the
    key file cannot be read, the cert file cannot be read, or the TLS stack
    rejects the pair, the callback still completes normally, the attempt
    contains no accepted install, and the listener's credentials after the
    attempt are those it had before. Over any run, whatever is written to
    the files and however long it lasts, the journal only grows, and the
    listener's credentials are the pair of the most recent accepted install
    of the run, or those it started with when there was none. *)
Theorem atomicity_under_failure (host : Host) (p : Process) :
  (forall e evs, AttemptFails host p e evs ->
     (reload host p).1 = Normal tt /\ server (reload host p).2 = server p /\
     lastInstalled evs = None) /\
  (forall trace T, exists evs,
     journal (advance host T (run host trace p)) = journal p ++ evs /\
     server (advance host T (run host trace p)) =
       match lastInstalled evs with
       | Some (k, c) => Https k c
       | None => server p
       end).
Proof.
  split.
  - intros e evs Hf. rewrite (reload_failed host p e evs Hf). simpl.
    split; [done|]. split; [done|]. by destruct Hf.
  - intros trace T. destruct (history_attempts host trace T p) as (evs & _ & Hj & Hs).
    exists evs. split; [done|]. by rewrite Hs, foldl_installed.
Qed.

Lemma atomicity_under_failure_witness :
  server (reload tlsHost certGone).2 = Https (B "KEY-0") (B "CERT-0") /\
  server (reload strictHost keyTruncated).2 = Https (B "KEY-0") (B "CERT-0").
Proof.
  split.
  - refine (proj1 (proj2 (proj1 (atomicity_under_failure tlsHost certGone)
             (ENOENT certFile) _
             (CertReadFails tlsHost certGone (B "KEY-0") (ENOENT certFile) _ _))));
      vm_compute; reflexivity.
  - refine (proj1 (proj2 (proj1 (atomicity_under_failure strictHost keyTruncated)
             noStartLine _
             (InstallFails strictHost keyTruncated [] (B "CERT-0") noStartLine _ _ _))));
      vm_compute; reflexivity.
Defined.

(** C5, no partial pair. In every reload attempt, [setSecureContext] is
    called, if at all, with the two buffers that the attempt itself has just
    read from the key path and the cert path, both reads having succeeded;
    the listener then keeps its credentials or holds exactly that pair. In
    the journal of any run of the program, from start-up on, every call of
    [setSecureContext] comes right after the start of a timeout callback and
    its two successful reads, and its arguments are the buffers read. *)
Theorem no_partial_pair (host : Host) :
  (forall q, exists blk,
      journal (reload host q).2 = journal q ++ blk /\
      freshInstall host (fs q) blk /\
      (server (reload host q).2 = server q \/
       exists k c, readResult (fs q) (keyPath host) = inr k /\
                   readResult (fs q) (certPath host) = inr c /\
                   server (reload host q).2 = Https k c)) /\
  (forall t0 files trace T,
      Fresh host
        (journal (advance host T (run host trace (bootstrap host (initial t0 files)).2)))).
Proof.
  split.
  - intros q. destruct (reload_block host q) as (blk & line & Hb & Hfr & Heq).
    exists blk. rewrite Heq. simpl. split; [done|]. split; [done|].
    destruct Hb as [e|k e|k c [|]]; simpl; try by left.
    right. exists k, c. destruct (Hfr k c true) as (Hk & Hc & _); [|done].
    do 2 right. left.
  - intros t0 files trace T.
    destruct (history_attempts host trace T (bootstrap host (initial t0 files)).2)
      as (evs & He & -> & _).
    apply Fresh_attempts; [|done]. apply Fresh_no_install.
    apply bootstrap_reads_only. intros k c ok Hin. by apply elem_of_nil in Hin.
Qed.

(** ** The reads of an attempt *)

(** C6, as the claim states it, fails: with an empty key file the two reads
    succeed, the key read being the empty buffer, and the attempt goes on
    to call [setSecureContext] with it. *)
Lemma empty_key_is_read_and_installed :
  isEmpty (fs keyTruncated) (keyPath tlsHost) /\
  (readPair tlsHost keyTruncated).1 = Normal ([], B "CERT-0") /\
  ~ (exists e, (readPair tlsHost keyTruncated).1 = Throw e) /\
  Install [] (B "CERT-0") true ∈ journal (reload tlsHost keyTruncated).2.
Proof.
  split; [by vm_compute|]. split; [by vm_compute|]. split.
  - intros [e He]. vm_compute in He. discriminate He.
  - vm_compute. repeat constructor.
Qed.

(** C6, amended. The two reads of a reload attempt fail exactly when the
    key file or the cert file is missing or unreadable. When both files are
    readable, empty or not, the reads return their contents and the attempt
    reaches the call of [setSecureContext] with them. *)
Theorem readPair_fails_iff_missing_or_unreadable (host : Host) (p : Process) :
  ((exists e, (readPair host p).1 = Throw e) <->
     ((isMissing (fs p) (keyPath host) \/ isUnreadable (fs p) (keyPath host)) \/
      (isMissing (fs p) (certPath host) \/ isUnreadable (fs p) (certPath host)))) /\
  (forall k c,
      fs p !! keyPath host = Some (Readable k) ->
      fs p !! certPath host = Some (Readable c) ->
      (readPair host p).1 = Normal (k, c) /\
      exists ok, Install k c ok ∈ journal (reload host p).2).
Proof.
  split.
  - rewrite <- !readResult_inl. unfold readPair, bind, readFileSync. simpl.
    destruct (readResult (fs p) (keyPath host)) as [e|k] eqn:Hk; simpl.
    { split; [intros _; left; by exists e|intros _; by exists e]. }
    destruct (readResult (fs p) (certPath host)) as [e|c] eqn:Hc; simpl.
    { split; [intros _; right; by exists e|intros _; by exists e]. }
    split; [intros [e He]; done|intros [[e He]|[e He]]; done].
  - intros k c Hk Hc.
    assert (readResult (fs p) (keyPath host) = inr k) as Hrk
      by (unfold readResult; by rewrite Hk).
    assert (readResult (fs p) (certPath host) = inr c) as Hrc
      by (unfold readResult; by rewrite Hc).
    split.
    { unfold readPair, bind, readFileSync. simpl. rewrite Hrk. simpl. by rewrite Hrc. }
    destruct (rejects host k c) as [e|] eqn:Hr.
    + exists false.
      rewrite (reload_failed host p e _ (InstallFails host p k c e Hrk Hrc Hr)).
      simpl. apply elem_of_app. right. do 2 right. left.
    + exists true. rewrite (reload_succeeded host p k c) by done.
      simpl. apply elem_of_app. right. do 2 right. left.
Qed.

Lemma readPair_fails_iff_missing_or_unreadable_witness :
  (exists e, (readPair tlsHost certGone).1 = Throw e) /\
  (readPair strictHost keyTruncated).1 = Normal ([], B "CERT-0").
Proof.
  split.
  - apply (proj2 (proj1 (readPair_fails_iff_missing_or_unreadable tlsHost certGone))).
    right. left. by vm_compute.
  - apply (proj2 (readPair_fails_iff_missing_or_unreadable strictHost keyTruncated)
             [] (B "CERT-0")); by vm_compute.
Defined.

(** ** The start-up gates *)

(** C7, as the claim states it, fails: when [fs.watch] throws on the cert
    path only, the error is logged and start-up completes, but the watch on
    the key path is registered, and a later write to the key file is
    reloaded into the listener. *)
Lemma cert_watch_failure_keeps_key_watch :
  watchError certWatchFails (certPath certWatchFails) = Some (ENOSPC certFile) /\
  (bootstrap certWatchFails (initial 0 files0)).1 = Normal tt /\
  let p := (bootstrap certWatchFails (initial 0 files0)).2 in
  let q := advance certWatchFails 2000
             (run certWatchFails [(1000, FsWrite keyFile (Some (Readable (B "KEY-1"))))] p) in
  watchers p = [keyFile] /\
  server p = Https (B "KEY-0") (B "CERT-0") /\
  firings q = [1500] /\
  server q = Https (B "KEY-1") (B "CERT-0").
Proof. by vm_compute. Qed.

(** C7, amended. When TLS is on, the server has [setSecureContext], start-up
    went through and [fs.watch] throws on the key path or on the cert path,
    start-up still completes normally, the console holds the listening line
    and one error line with the error thrown, no timeout is armed and the
    listener has the start-up pair. When it is the watch on the key path
    that throws, no watch is registered and, whatever is written to the
    files afterwards, no reload attempt is ever made and the start-up pair
    stays in force. *)
Theorem watch_failure_is_reported_once (host : Host) t0 files port k0 c0 addr e :
  API_PORT host = Some port ->
  secure host = true ->
  dynamicInstall host = true ->
  readResult files (keyPath host) = inr k0 ->
  readResult files (certPath host) = inr c0 ->
  listenResult host = inr addr ->
  (watchError host (keyPath host) = Some e \/
   (watchError host (keyPath host) = None /\ watchError host (certPath host) = Some e)) ->
  exists p,
    bootstrap host (initial t0 files) = (Normal tt, p) /\
    console p = [listeningLine addr; watchFailedLine e] /\
    server p = Https k0 c0 /\
    timers p = [] /\
    (watchError host (keyPath host) = Some e ->
     watchers p = [] /\
     forall trace T,
       let q := advance host T (run host trace p) in
       journal q = journal p /\ firings q = [] /\ server q = Https k0 c0 /\
       console q = console p).
Proof.
  intros Hp Hs Hd Hk Hc Hl Hw.
  rewrite (bootstrap_secure host (initial t0 files) port k0 c0 addr) by done.
  destruct Hw as [Hwk|[Hwk Hwc]].
  - rewrite (attach_key_watch_fails host _ e) by done.
    match goal with |- context [(Normal tt, ?q)] => set (p := q) end.
    exists p. split; [done|]. split; [done|]. split; [done|]. split; [done|].
    intros _. split; [done|]. intros trace T.
    destruct (inert_forever host trace T p) as (Hj & Hf & Hsv & Hco & _); [done|done|].
    cbv zeta. rewrite Hj, Hf, Hsv, Hco. done.
  - rewrite (attach_cert_watch_fails host _ e) by done.
    eexists. split; [reflexivity|]. simpl. split; [done|]. split; [done|]. split; [done|].
    intros Hwk'. congruence.
Qed.

Lemma watch_failure_is_reported_once_witness :
  exists p,
    bootstrap keyWatchFails (initial 0 files0) = (Normal tt, p) /\
    console p = [listeningLine "https://0.0.0.0:3334"; watchFailedLine (ENOSPC keyFile)] /\
    watchers p = [].
Proof.
  destruct (watch_failure_is_reported_once keyWatchFails 0 files0 "3334"
              (B "KEY-0") (B "CERT-0") "https://0.0.0.0:3334" (ENOSPC keyFile))
    as (p & Hb & Hco & _ & _ & Hrest);
    [reflexivity|by vm_compute|reflexivity|by vm_compute|by vm_compute|reflexivity| |].
  { left. by vm_compute. }
  exists p. split; [exact Hb|]. split; [exact Hco|]. apply Hrest. by vm_compute.
Defined.

(** C8, disabled-capability guard. When TLS is on but the server object has
    no [setSecureContext] function, a start-up that completes registers no
    watch and logs exactly one warning; whatever is written to the key and
    cert files afterwards, no watch appears, no reload attempt is made (no
    callback runs, no file is read, nothing is installed) and nothing more
    is logged. *)
Theorem no_watch_without_setSecureContext (host : Host) t0 files port p :
  API_PORT host = Some port ->
  secure host = true ->
  dynamicInstall host = false ->
  bootstrap host (initial t0 files) = (Normal tt, p) ->
  watchers p = [] /\
  List.filter (isLevel LWarn) (console p) = [notAvailableLine] /\
  forall trace T,
    let q := advance host T (run host trace p) in
    watchers q = [] /\ journal q = journal p /\ firings q = [] /\
    server q = server p /\ console q = console p.
Proof.
  intros Hp Hs Hd Hb.
  destruct (bootstrap_normal_inv host _ port p Hp Hb)
    as [[Hs' _]|(_ & k & c & addr & Hk & Hc & Hl & Ha)]; [congruence|].
  rewrite (attach_no_capability host) in Ha by done. injection Ha as Ha.
  split; [by rewrite <- Ha|]. split; [by rewrite <- Ha|]. intros trace T.
  destruct (inert_forever host trace T p) as (Hj & Hf & Hsv & Hco & Hw & _);
    [by rewrite <- Ha|by rewrite <- Ha|].
  cbv zeta. rewrite Hj, Hf, Hsv, Hco, Hw. split; [done|]. split; [done|].
  split; [by rewrite <- Ha|done].
Qed.

Lemma no_watch_without_setSecureContext_witness :
  let p := (bootstrap noSetSecureContext (initial 0 files0)).2 in
  watchers p = [] /\
  List.filter (isLevel LWarn) (console p) = [notAvailableLine] /\
  firings (advance noSetSecureContext 9000
             (run noSetSecureContext
                  [(1000, FsWrite keyFile (Some (Readable (B "KEY-1"))));
                   (1100, FsWrite certFile (Some (Readable (B "CERT-1"))))] p)) = [].
Proof.
  destruct (no_watch_without_setSecureContext noSetSecureContext 0 files0 "3334"
              (bootstrap noSetSecureContext (initial 0 files0)).2)
    as (Hw & Hwarn & Hrun); [reflexivity|by vm_compute|reflexivity|by vm_compute|].
  split; [exact Hw|]. split; [exact Hwarn|].
  apply (Hrun [(1000, FsWrite keyFile (Some (Readable (B "KEY-1"))));
               (1100, FsWrite certFile (Some (Readable (B "CERT-1"))))] 9000).
Defined.

(** ** Logging *)

(** C9. A failed reload attempt, with whichever of the three causes, adds
    exactly one line to the console; the line is an error line made of the
    fixed text and the error caught, and carries no timestamp. *)
Theorem failed_reload_line_lacks_timestamp
        (host : Host) (p : Process) (e : Error) (evs : list Event) :
  AttemptFails host p e evs ->
  console (reload host p).2 = console p ++ [failureLine e] /\
  level (failureLine e) = LError /\
  hasTimestamp (failureLine e) = false.
Proof. intros Hf. by rewrite (reload_failed host p e evs Hf). Qed.

Lemma failed_reload_line_lacks_timestamp_witness :
  console (reload tlsHost certGone).2
    = console certGone ++ [failureLine (ENOENT certFile)] /\
  hasTimestamp (failureLine (ENOENT certFile)) = false.
Proof.
  destruct (failed_reload_line_lacks_timestamp tlsHost certGone (ENOENT certFile) _
              (CertReadFails tlsHost certGone (B "KEY-0") (ENOENT certFile)
                 ltac:(by vm_compute) ltac:(by vm_compute)))
    as (Hc & _ & Ht).
  split; [exact Hc|exact Ht].
Defined.

(** The sibling path: a successful attempt logs one line that ends with the
    time of the attempt. *)
Lemma successful_reload_line_has_timestamp (host : Host) (p : Process) (k c : Buffer) :
  AttemptSucceeds host p k c ->
  console (reload host p).2 = console p ++ [successLine (clock p)] /\
  hasTimestamp (successLine (clock p)) = true.
Proof. intros Hs. by rewrite (reload_succeeded host p k c Hs). Qed.

(** ** The enablement predicate *)

(** C10, as the claim states it, fails in the "if" direction for the
    watcher pipeline: with [API_SECURE] spelled [True] and a server without
    [setSecureContext], start-up completes with HTTPS credentials, yet no
    watch is registered and later writes to both files cause no reload; the
    same when the watch on the key path throws. *)
Lemma secure_without_watchers :
  toLowerCase <$> API_SECURE noSetSecureContext = Some "true"%string /\
  toLowerCase <$> API_SECURE keyWatchFails = Some "true"%string /\
  (bootstrap noSetSecureContext (initial 0 files0)).1 = Normal tt /\
  (bootstrap keyWatchFails (initial 0 files0)).1 = Normal tt /\
  let p := (bootstrap noSetSecureContext (initial 0 files0)).2 in
  let p' := (bootstrap keyWatchFails (initial 0 files0)).2 in
  let writes := [(1000, FsWrite keyFile (Some (Readable (B "KEY-1"))));
                 (1100, FsWrite certFile (Some (Readable (B "CERT-1"))))] in
  server p = Https (B "KEY-0") (B "CERT-0") /\
  watchers p = [] /\ timers p = [] /\
  firings (advance noSetSecureContext 9000 (run noSetSecureContext writes p)) = [] /\
  server (advance noSetSecureContext 9000 (run noSetSecureContext writes p))
    = Https (B "KEY-0") (B "CERT-0") /\
  watchers p' = [] /\
  firings (advance keyWatchFails 9000 (run keyWatchFails writes p')) = [].
Proof. by vm_compute. Qed.

(** C10, amended. After a start-up that completes in a configured
    environment, the server has HTTPS credentials if and only if
    [API_SECURE], lowercased, is the string [true]. The watcher pipeline is
    installed only under that condition, and not always then: some watch is
    registered exactly when, in addition, the server has [setSecureContext]
    and the watch on the key path registers, and both files are watched
    exactly when the watch on the cert path registers too. For every other
    value, unset included, the server is a plain one, no file has been
    read, no watch is registered, no timeout is armed, and nothing done to
    the files afterwards changes any of that. *)
Theorem tls_gate_and_watch_conditions (host : Host) t0 files port p :
  API_PORT host = Some port ->
  bootstrap host (initial t0 files) = (Normal tt, p) ->
  let enabled := toLowerCase <$> API_SECURE host = Some "true"%string in
  (enabled <-> exists k c, server p = Https k c) /\
  (watchers p <> [] <->
     enabled /\ dynamicInstall host = true /\ watchError host (keyPath host) = None) /\
  (watchers p = [keyPath host; certPath host] <->
     enabled /\ dynamicInstall host = true /\ watchError host (keyPath host) = None /\
     watchError host (certPath host) = None) /\
  (~ enabled ->
   server p = Http /\ watchers p = [] /\ timers p = [] /\ journal p = [] /\
   forall trace T,
     let q := advance host T (run host trace p) in
     journal q = [] /\ server q = Http /\ watchers q = [] /\ timers q = [] /\
     console q = console p).
Proof.
  intros Hp Hb enabled.
  assert (secure host = true <-> enabled) as Hsec by apply bool_decide_eq_true.
  destruct (bootstrap_normal_inv host _ port p Hp Hb)
    as [(Hs & addr & Hl & ->)|(Hs & k & c & addr & Hk & Hc & Hl & Ha)].
  - assert (~ enabled) as Hne by (rewrite <- Hsec; congruence).
    split; [split; [done|intros (k & c & ?); done]|].
    split; [split; [done|by intros (He & _)]|].
    split; [split; [done|by intros (He & _)]|].
    intros _. do 4 (split; [done|]). intros trace T.
    match goal with |- context [run host trace ?q] => set (p := q) end.
    destruct (inert_forever host trace T p) as (Hj & Hf & Hsv & Hco & Hw & Ht);
      [done|done|].
    cbv zeta. rewrite Hj, Hsv, Hco, Hw, Ht. done.
  - assert (enabled) as He by (by apply Hsec).
    split; [|split; [|split; [|done]]].
    + split; [intros _|done]. exists k, c.
      destruct (attach_secure host (listeningSecure host (initial t0 files) k c addr) Hs)
        as (line & ws & _ & _ & _ & _ & Hsv & _).
      by rewrite Ha in Hsv.
    + destruct (dynamicInstall host) eqn:Hd.
      * destruct (watchError host (keyPath host)) as [e|] eqn:Hwk.
        { rewrite (attach_key_watch_fails host _ e) in Ha by done. injection Ha as <-.
          simpl. split; [done|by intros (_ & _ & ?)]. }
        destruct (watchError host (certPath host)) as [e|] eqn:Hwc.
        { rewrite (attach_cert_watch_fails host _ e) in Ha by done. injection Ha as <-.
          simpl. split; [done|by intros _]. }
        rewrite (attach_watching host) in Ha by done. injection Ha as <-.
        simpl. split; [done|by intros _].
      * rewrite (attach_no_capability host) in Ha by done. injection Ha as <-.
        simpl. split; [done|by intros (_ & ? & _)].
    + destruct (dynamicInstall host) eqn:Hd.
      * destruct (watchError host (keyPath host)) as [e|] eqn:Hwk.
        { rewrite (attach_key_watch_fails host _ e) in Ha by done. injection Ha as <-.
          simpl. split; [done|by intros (_ & _ & ? & _)]. }
        destruct (watchError host (certPath host)) as [e|] eqn:Hwc.
        { rewrite (attach_cert_watch_fails host _ e) in Ha by done. injection Ha as <-.
          simpl. split; [done|by intros (_ & _ & _ & ?)]. }
        rewrite (attach_watching host) in Ha by done. injection Ha as <-.
        simpl. split; [done|by intros _].
      * rewrite (attach_no_capability host) in Ha by done. injection Ha as <-.
        simpl. split; [done|by intros (_ & ? & _)].
Qed.

Lemma tls_gate_and_watch_conditions_witness :
  server (bootstrap plainHost (initial 0 files0)).2 = Http /\
  (exists k c, server running = Https k c) /\
  watchers running = [keyPath tlsHost; certPath tlsHost].
Proof.
  split; [|split].
  - refine (proj1 (proj2 (proj2 (proj2 (tls_gate_and_watch_conditions plainHost 0 files0
              "3334" (bootstrap plainHost (initial 0 files0)).2 _ _))) _)).
    + reflexivity.
    + by vm_compute.
    + vm_compute. discriminate.
  - refine (proj1 (proj1 (tls_gate_and_watch_conditions tlsHost 0 files0 "3334"
                            running _ _)) _).
    + reflexivity.
    + by vm_compute.
    + reflexivity.
  - refine (proj2 (proj1 (proj2 (proj2 (tls_gate_and_watch_conditions tlsHost 0 files0
              "3334" running _ _)))) _).
    + reflexivity.
    + by vm_compute.
    + repeat split; by vm_compute.
Defined.

(** * Further properties of [bootstrap] and of the reload pipeline *)

Import Scenario.

(** ** The two paths *)

Lemma collapse_slash_slash (r : string) :
  collapseSlashes (String "/" (String "/" r)) = collapseSlashes (String "/" r).
Proof. reflexivity. Qed.

Lemma collapse_other (ch : ascii) (r : string) :
  ch <> "/"%char -> collapseSlashes (String ch r) = String ch (collapseSlashes r).
Proof.
  intros Hne. destruct ch as [[] [] [] [] [] [] [] []]; try reflexivity. by destruct Hne.
Qed.

Lemma collapse_slash_other (ch : ascii) (r : string) :
  ch <> "/"%char ->
  collapseSlashes (String "/" (String ch r)) = String "/" (collapseSlashes (String ch r)).
Proof.
  intros Hne. destruct ch as [[] [] [] [] [] [] [] []]; try reflexivity. by destruct Hne.
Qed.

(** Whatever precedes it, a suffix that starts with a slash and has no
    doubled slash survives [collapseSlashes] unchanged. *)
Lemma collapse_prefix (a : string) :
  exists pre, forall suf,
    collapseSlashes (String "/" suf) = String "/" suf ->
    collapseSlashes (a +:+ String "/" suf) = pre +:+ String "/" suf.
Proof.
  induction a as [|ch r IH].
  - exists ""%string. intros suf H. exact H.
  - destruct IH as [pre IH].
    destruct (Ascii.ascii_dec ch "/") as [->|Hne].
    + destruct r as [|ch' r'].
      * exists pre. intros suf H.
        change (collapseSlashes (String "/" (String "/" suf)) = pre +:+ String "/" suf).
        rewrite collapse_slash_slash. exact (IH suf H).
      * destruct (Ascii.ascii_dec ch' "/") as [->|Hne'].
        -- exists pre. intros suf H.
           change (collapseSlashes (String "/" (String "/" (r' +:+ String "/" suf)))
                   = pre +:+ String "/" suf).
           rewrite collapse_slash_slash. exact (IH suf H).
        -- exists (String "/" pre). intros suf H.
           change (collapseSlashes (String "/" (String ch' (r' +:+ String "/" suf)))
                   = String "/" (pre +:+ String "/" suf)).
           rewrite collapse_slash_other by done. f_equal. exact (IH suf H).
    + exists (String ch pre). intros suf H.
      change (collapseSlashes (String ch (r +:+ String "/" suf))
              = String ch (pre +:+ String "/" suf)).
      rewrite collapse_other by done. f_equal. exact (IH suf H).
Qed.

Lemma string_app_inv_head (a b c : string) : a +:+ b = a +:+ c -> b = c.
Proof. induction a as [|ch a IH]; simpl; [done|]. intros [= H]. by apply IH. Qed.

(** ** The files along a run *)

Lemma scheduleReload_fs q : fs (scheduleReload q).2 = fs q.
Proof.
  unfold scheduleReload, bind, gets, clearTimeout, setTimeout, modify, ret.
  by destruct (reloadTimer q).
Qed.

Lemma deliver_fs (p : string) q : fs (deliver p q).2 = fs q.
Proof.
  unfold deliver, bind, gets. generalize (watchers q) as ws. intros ws. revert q.
  induction ws as [|w ws IH]; intros q; [done|].
  simpl. unfold bind. case_bool_decide.
  - destruct (scheduleReload_quiet q) as (q1 & Hq1 & _).
    pose proof (scheduleReload_fs q) as Hfs. rewrite Hq1 in Hfs |- *. simpl in Hfs.
    by rewrite IH.
  - unfold ret at 1. apply IH.
Qed.

Lemma handle_fs i q : fs (handle i q).2 = written i (fs q).
Proof.
  destruct i as [p [x|]|p]; simpl; unfold bind, modify; simpl; by rewrite ?deliver_fs.
Qed.

Section Scenarios.

Context (host : Host).

Lemma fire_fs h d q : fs (fire host h d q).2 = fs q.
Proof.
  rewrite fire_eq. by destruct (reload_block host (dueState h d q)) as (blk & line & _ & _ & ->).
Qed.

Lemma advance_fs T q : fs (advance host T q) = fs q.
Proof.
  unfold advance. simpl. generalize (filter (isDue T) (timers q)) as l. intros l. revert q.
  induction l as [|[h d] l IH]; intros q; [done|].
  simpl. by rewrite IH, fire_fs.
Qed.

(** The process never writes the files: after a run they are what the
    inputs made of them. *)
Lemma run_fs trace : forall q, fs (run host trace q) = filesAfter trace (fs q).
Proof.
  induction trace as [|[t i] trace IH]; intros q; [done|].
  change (run host ((t, i) :: trace) q) with (run host trace (step host q (t, i))).
  rewrite IH. unfold step. simpl. by rewrite handle_fs, advance_fs.
Qed.

(** ** An attempt whose reads succeed *)

Lemma advance_outcome T q d k c :
  armedAt d q -> clock q <= d -> d <= T ->
  readResult (fs q) (keyPath host) = inr k ->
  readResult (fs q) (certPath host) = inr c ->
  let q' := advance host T q in
  (exists h, journal q' = journal q ++
               [Fired h d; Read (keyPath host) (inr k); Read (certPath host) (inr c);
                installEntry host k c]) /\
  server q' = installOutcome host k c (server q) /\
  console q' = console q ++ [attemptLine host k c d] /\
  timers q' = [] /\ clock q' = T /\ fs q' = fs q /\ watchers q' = watchers q.
Proof.
  intros (h & Ht & Hr) Hclk Hle Hk Hc. cbv zeta.
  rewrite (advance_due host T q h d) by done. rewrite fire_eq.
  unfold installOutcome, installEntry, attemptLine.
  destruct (rejects host k c) as [e|] eqn:Hrej.
  - rewrite (reload_failed host (dueState h d q) e _
               (InstallFails host (dueState h d q) k c e Hk Hc Hrej)).
    simpl. rewrite Ht, filter_cons, filter_nil, decide_False by (simpl; tauto).
    replace (Z.max d (clock q)) with d by lia.
    split; [exists h; by rewrite <- app_assoc|]. repeat split; (done || lia).
  - rewrite (reload_succeeded host (dueState h d q) k c) by done.
    simpl. rewrite Ht, filter_cons, filter_nil, decide_False by (simpl; tauto).
    replace (Z.max d (clock q)) with d by lia.
    split; [exists h; by rewrite <- app_assoc|]. repeat split; (done || lia).
Qed.

(** An attempt that fails *)
Lemma advance_failure T q d e evs :
  armedAt d q -> clock q <= d -> d <= T ->
  AttemptFails host q e evs ->
  let q' := advance host T q in
  (exists h, journal q' = journal q ++ Fired h d :: evs) /\
  server q' = server q /\
  console q' = console q ++ [failureLine e] /\
  timers q' = [] /\ clock q' = T.
Proof.
  intros (h & Ht & Hr) Hclk Hle Hf. cbv zeta.
  rewrite (advance_due host T q h d) by done. rewrite fire_eq.
  assert (AttemptFails host (dueState h d q) e evs) as Hf'.
  { destruct Hf; [by apply KeyReadFails|by apply CertReadFails|by apply InstallFails]. }
  rewrite (reload_failed host _ e evs Hf').
  simpl. rewrite Ht, filter_cons, filter_nil, decide_False by (simpl; tauto).
  replace (Z.max d (clock q)) with d by lia.
  split; [exists h; by rewrite <- app_assoc|]. repeat split; (done || lia).
Qed.

(** A burst from an idle process: where it leaves the process. *)
Lemma burst_settles p t1 i1 rest :
  timers p = [] -> clock p <= t1 ->
  Forall (fun ti : Z * Input => inputPath ti.2 ∈ watchers p) ((t1, i1) :: rest) ->
  closelySpaced t1 rest.*1 ->
  let tlast := default t1 (last rest.*1) in
  let q := run host ((t1, i1) :: rest) p in
  armedAt (tlast + 500) q /\ clock q = tlast /\
  fs q = filesAfter ((t1, i1) :: rest) (fs p) /\
  server q = server p /\ console q = console p /\ journal q = journal p /\
  watchers q = watchers p.
Proof.
  intros Hidle Hclk Hw Hsp tlast q.
  destruct (burst_from_idle host p t1 i1 rest Hidle Hclk Hw Hsp) as [Hq Ha].
  fold tlast in Hq, Ha. fold q in Hq, Ha.
  destruct Hq as (Hc & Hs & Hwa & Hco & Hj).
  split; [done|]. split; [exact Hc|]. split; [apply run_fs|]. done.
Qed.

(** The start-up that ends with both files watched. *)
Lemma bootstrap_watching t0 files port k0 c0 addr :
  StartsWatching host files port k0 c0 addr ->
  bootstrap host (initial t0 files) = (Normal tt, watching host t0 files k0 c0 addr).
Proof.
  intros (Hp & Hs & Hd & Hk & Hc & Hl & Hwk & Hwc).
  rewrite (bootstrap_secure host (initial t0 files) port k0 c0 addr) by done.
  by rewrite (attach_watching host).
Qed.

Lemma paths_differ : keyPath host <> certPath host.
Proof.
  destruct (collapse_prefix (cwd host)) as [pre Hpre].
  unfold keyPath, certPath, path_join, currentDirectory.
  change (String.concat "/" [cwd host; "secrets"; "key.pem"]%string)
    with (cwd host +:+ String "/" "secrets/key.pem").
  change (String.concat "/" [cwd host; "secrets"; "cert.pem"]%string)
    with (cwd host +:+ String "/" "secrets/cert.pem").
  rewrite !Hpre by reflexivity. intros H. apply string_app_inv_head in H. discriminate H.
Qed.

End Scenarios.

(** ** Start-up outcomes (lines 12-66) *)

(** X1. Without [API_PORT] the program writes one error line and returns:
    no file is read, no server is created, nothing is watched, whatever
    [API_SECURE] says, and nothing that happens to the files later has any
    effect. *)
Theorem unconfigured_startup_is_inert (host : Host) t0 files :
  API_PORT host = None ->
  let p := (bootstrap host (initial t0 files)).2 in
  (bootstrap host (initial t0 files)).1 = Normal tt /\
  console p = [unconfiguredLine] /\
  server p = NoServer /\ journal p = [] /\ watchers p = [] /\
  forall trace T,
    let q := advance host T (run host trace p) in
    journal q = [] /\ server q = NoServer /\ console q = [unconfiguredLine].
Proof.
  intros Hp. cbv zeta. rewrite (bootstrap_unconfigured host _ Hp). cbn [fst snd].
  set (p := with_console _ (initial t0 files)).
  do 5 (split; [done|]). intros trace T.
  destruct (inert_forever host trace T p) as (Hj & _ & Hs & Hc & _); [done|done|].
  cbv zeta. by rewrite Hj, Hs, Hc.
Qed.

Lemma unconfigured_startup_is_inert_witness :
  console (bootstrap noEnv (initial 0 files0)).2 = [unconfiguredLine] /\
  server (bootstrap noEnv (initial 0 files0)).2 = NoServer.
Proof.
  destruct (unconfigured_startup_is_inert noEnv 0 files0) as (_ & Hc & Hs & _);
    [reflexivity|].
  split; [exact Hc|exact Hs].
Defined.

(** X2. With TLS on, a key or cert file that cannot be read at start-up
    makes [bootstrap] throw that read error before any server exists:
    nothing is logged, nothing is watched, and when it is the key that
    fails the cert is not read at all. *)
Theorem startup_read_failure_throws (host : Host) t0 files port e :
  API_PORT host = Some port ->
  secure host = true ->
  (readResult files (keyPath host) = inl e \/
   exists k, readResult files (keyPath host) = inr k /\
             readResult files (certPath host) = inl e) ->
  let r := bootstrap host (initial t0 files) in
  r.1 = Throw e /\ server r.2 = NoServer /\ console r.2 = [] /\
  watchers r.2 = [] /\ timers r.2 = [] /\
  (readResult files (keyPath host) = inl e ->
   journal r.2 = [Read (keyPath host) (inl e)]).
Proof.
  intros Hp Hs Hr. cbv zeta.
  unfold bootstrap, startupOptions, bind, readFileSync. rewrite Hp, Hs. simpl.
  destruct Hr as [Hk|(k & Hk & Hc)].
  - rewrite Hk. simpl. by repeat split.
  - rewrite Hk. simpl. rewrite Hc. simpl. do 5 (split; [done|]). intros [=].
Qed.

Lemma startup_read_failure_throws_witness :
  (bootstrap tlsHost (initial 0 keyOnly)).1 = Throw (ENOENT certFile) /\
  server (bootstrap tlsHost (initial 0 keyOnly)).2 = NoServer.
Proof.
  destruct (startup_read_failure_throws tlsHost 0 keyOnly "3334" (ENOENT certFile))
    as (H1 & H2 & _); [reflexivity|by vm_compute| |].
  - right. exists (B "KEY-0"). by vm_compute.
  - split; [exact H1|exact H2].
Defined.



(** X4. A secure start-up in which both files are readable, the TLS stack
    accepts the pair read, [listen] succeeds, the server has
    [setSecureContext] and both watches register, completes with the
    listener holding exactly the pair read from the two files, both paths
    watched (key first), the two lines "listening" and "watching" on the
    console, and no timeout armed. *)
Theorem secure_startup_watches_both (host : Host) t0 files port k0 c0 addr :
  StartsWatching host files port k0 c0 addr ->
  rejects host k0 c0 = None ->
  exists p,
    bootstrap host (initial t0 files) = (Normal tt, p) /\
    server p = Https k0 c0 /\
    watchers p = [keyPath host; certPath host] /\
    console p = [listeningLine addr; watchingLine] /\
    journal p = [Read (keyPath host) (inr k0); Read (certPath host) (inr c0)] /\
    timers p = [] /\ fs p = files /\ clock p = t0.
Proof.
  intros H _. exists (watching host t0 files k0 c0 addr).
  split; [by apply (bootstrap_watching host t0 files port)|]. by repeat split.
Qed.

Lemma secure_startup_watches_both_witness :
  exists p, bootstrap tlsHost (initial 0 files0) = (Normal tt, p) /\
            server p = Https (B "KEY-0") (B "CERT-0") /\
            watchers p = [keyFile; certFile].
Proof.
  destruct (secure_startup_watches_both tlsHost 0 files0 "3334" (B "KEY-0") (B "CERT-0")
              "https://0.0.0.0:3334") as (p & Hb & Hs & Hw & _).
  - repeat split; by vm_compute.
  - reflexivity.
  - exists p. split; [exact Hb|]. split; [exact Hs|exact Hw].
Defined.

(** X5. With TLS off the secrets directory plays no part: no file is read,
    and the completion, the console and the server are the same whatever
    the file system holds, missing files included. *)
Theorem plain_startup_ignores_secrets (host : Host) t0 files files' port :
  API_PORT host = Some port ->
  secure host = false ->
  let r := bootstrap host (initial t0 files) in
  let r' := bootstrap host (initial t0 files') in
  journal r.2 = [] /\ server r.2 = Http /\
  r.1 = r'.1 /\ console r.2 = console r'.2 /\ server r.2 = server r'.2 /\
  (r.1 = Normal tt <-> exists addr, listenResult host = inr addr).
Proof.
  intros Hp Hs. cbv zeta. rewrite !(bootstrap_insecure host _ port Hp Hs).
  destruct (listenResult host) as [err|addr]; simpl.
  - do 5 (split; [done|]). split; [done|]. intros [addr [=]].
  - do 5 (split; [done|]). split; [by exists addr|done].
Qed.

Lemma plain_startup_ignores_secrets_witness :
  (bootstrap plainHost (initial 0 ∅)).1 = Normal tt /\
  journal (bootstrap plainHost (initial 0 ∅)).2 = [].
Proof.
  destruct (plain_startup_ignores_secrets plainHost 0 ∅ files0 "3334")
    as (Hj & _ & _ & _ & _ & Hn); [reflexivity|by vm_compute|].
  split; [|exact Hj]. apply Hn. by eexists.
Defined.

(** ** Paths and the enablement flag (lines 18-21) *)

(** X6. For every working directory the key path and the cert path are the
    same directory prefix followed by [/secrets/key.pem] and
    [/secrets/cert.pem]; in particular they differ, so the two watches and
    the two reads never fall on the same file. *)
Theorem secret_paths_differ (host : Host) :
  (exists pre, keyPath host = pre +:+ "/secrets/key.pem" /\
               certPath host = pre +:+ "/secrets/cert.pem") /\
  keyPath host <> certPath host.
Proof.
  split; [|apply paths_differ].
  destruct (collapse_prefix (cwd host)) as [pre Hpre]. exists pre.
  unfold keyPath, certPath, path_join, currentDirectory.
  change (String.concat "/" [cwd host; "secrets"; "key.pem"]%string)
    with (cwd host +:+ String "/" "secrets/key.pem").
  change (String.concat "/" [cwd host; "secrets"; "cert.pem"]%string)
    with (cwd host +:+ String "/" "secrets/cert.pem").
  by rewrite !Hpre.
Qed.

Lemma lowerAscii_t (c : ascii) :
  lowerAscii c = "t"%char <-> c = "t"%char \/ c = "T"%char.
Proof.
  destruct c as [[] [] [] [] [] [] [] []]; vm_compute; split; intros H;
    try discriminate H; try (destruct H as [H|H]; discriminate H); auto.
Qed.

Lemma lowerAscii_r (c : ascii) :
  lowerAscii c = "r"%char <-> c = "r"%char \/ c = "R"%char.
Proof.
  destruct c as [[] [] [] [] [] [] [] []]; vm_compute; split; intros H;
    try discriminate H; try (destruct H as [H|H]; discriminate H); auto.
Qed.

Lemma lowerAscii_u (c : ascii) :
  lowerAscii c = "u"%char <-> c = "u"%char \/ c = "U"%char.
Proof.
  destruct c as [[] [] [] [] [] [] [] []]; vm_compute; split; intros H;
    try discriminate H; try (destruct H as [H|H]; discriminate H); auto.
Qed.

Lemma lowerAscii_e (c : ascii) :
  lowerAscii c = "e"%char <-> c = "e"%char \/ c = "E"%char.
Proof.
  destruct c as [[] [] [] [] [] [] [] []]; vm_compute; split; intros H;
    try discriminate H; try (destruct H as [H|H]; discriminate H); auto.
Qed.

(** X7. TLS is enabled exactly when [API_SECURE] is set to one of the
    sixteen spellings of [true] in upper and lower case: four characters,
    no surrounding blanks, no other truthy word. *)
Theorem secure_iff_case_variant_of_true (host : Host) :
  secure host = true <->
  exists a b c d,
    API_SECURE host = Some (String a (String b (String c (String d "")))) /\
    (a = "t" \/ a = "T")%char /\ (b = "r" \/ b = "R")%char /\
    (c = "u" \/ c = "U")%char /\ (d = "e" \/ d = "E")%char.
Proof.
  unfold secure. rewrite bool_decide_eq_true.
  destruct (API_SECURE host) as [s|]; simpl.
  - split.
    + intros [= H].
      destruct s as [|a [|b [|c [|d [|x s]]]]]; simpl in H; try discriminate H.
      injection H as Ha Hb Hc Hd.
      exists a, b, c, d. split; [done|].
      by rewrite <- lowerAscii_t, <- lowerAscii_r, <- lowerAscii_u, <- lowerAscii_e.
    + intros (a & b & c & d & [= ->] & Ha & Hb & Hc & Hd). simpl.
      apply lowerAscii_t in Ha. apply lowerAscii_r in Hb.
      apply lowerAscii_u in Hc. apply lowerAscii_e in Hd. by rewrite Ha, Hb, Hc, Hd.
  - split; [done|]. by intros (a & b & c & d & [=] & _).
Qed.

Lemma secure_iff_case_variant_of_true_witness : secure tlsHost = true.
Proof.
  apply (proj2 (secure_iff_case_variant_of_true tlsHost)).
  exists "T"%char, "R"%char, "U"%char, "E"%char. split; [reflexivity|]. tauto.
Defined.

(** ** Invariants of the event loop (lines 75-90) *)

Section LoopInvariants.

Context (host : Host).

Lemma advance_DueSoon T q : DueSoon q -> DueSoon (advance host T q).
Proof.
  intros [Hidle|(d & (h & Ht & Hr) & Hd)].
  - left. by rewrite advance_idle.
  - destruct (Z_lt_le_dec T d) as [Hlt|Hle].
    + right. exists d. rewrite (advance_not_due host T q h d) by done. simpl.
      split; [by exists h|lia].
    + left. rewrite (advance_due host T q h d) by done.
      destruct (fire_block host h d q) as (blk & line & _ & _ & _ & _ & _ & _ & Htm).
      simpl. rewrite Htm, Ht, filter_cons, filter_nil, decide_False by (simpl; tauto).
      done.
Qed.

Lemma handle_DueSoon i q : DueSoon q -> DueSoon (handle i q).2.
Proof.
  intros Hq.
  assert (Owned q) as Hown.
  { destruct Hq as [?|(d & ? & _)]; [by apply idle_Owned|by apply (armedAt_Owned d)]. }
  destruct (handle_spec i q Hown) as (q' & -> & (Hc & _) & _ & Hin & Hnin). simpl.
  destruct (decide (inputPath i ∈ watchers q)) as [Hw|Hw].
  - right. exists (clock q + 500). split; [by apply Hin|lia].
  - destruct (Hnin Hw) as [Ht Hr]. destruct Hq as [Hidle|(d & (h & Htq & Hrq) & Hd)].
    + left. congruence.
    + right. exists d. split; [exists h; split; congruence|lia].
Qed.

Lemma run_DueSoon trace : forall q, DueSoon q -> DueSoon (run host trace q).
Proof.
  induction trace as [|[t i] trace IH]; intros q Hq; [done|].
  change (run host ((t, i) :: trace) q) with (run host trace (step host q (t, i))).
  apply IH. unfold step. simpl. by apply handle_DueSoon, advance_DueSoon.
Qed.

(** The line and the journal entries of one timeout coming due. *)
Lemma fire_line h d q :
  exists l evs,
    journal (fire host h d q).2 = journal q ++ Fired h (Z.max d (clock q)) :: evs /\
    omap firedAt evs = [] /\
    console (fire host h d q).2 = console q ++ [l] /\
    reloadLineAt (Z.max d (clock q)) l.
Proof.
  rewrite fire_eq.
  destruct (attempt_cases host (dueState h d q)) as [(e & evs & Hf)|(k & c & Hs)].
  - exists (failureLine e), evs. rewrite (reload_failed host _ e evs Hf). simpl.
    rewrite <- app_assoc. split; [done|]. split; [by destruct Hf|].
    split; [done|]. right. by exists e.
  - eexists (successLine _), _. rewrite (reload_succeeded host _ k c Hs). simpl.
    rewrite <- app_assoc. split; [reflexivity|]. split; [done|]. split; [done|]. by left.
Qed.

Lemma fires_lines (l : list (nat * Z)) :
  forall q,
    let q' := foldl (fun q hd => (fire host hd.1 hd.2 q).2) q l in
    exists ts lines,
      firings q' = firings q ++ ts /\ console q' = console q ++ lines /\
      Forall2 reloadLineAt ts lines.
Proof.
  induction l as [|[h d] l IH]; intros q.
  { exists [], []. simpl. by rewrite !app_nil_r. }
  simpl. destruct (fire_line h d q) as (ln & evs & Hj & Hev & Hc & Hl).
  destruct (IH (fire host h d q).2) as (ts & lines & Hf' & Hc' & Hall).
  exists (Z.max d (clock q) :: ts), (ln :: lines).
  split; [|split; [|by constructor]].
  - rewrite Hf'. unfold firings. rewrite Hj.
    change (Fired h (Z.max d (clock q)) :: evs)
      with ([Fired h (Z.max d (clock q))] ++ evs).
    rewrite !omap_app, Hev, app_nil_r, <- app_assoc. done.
  - rewrite Hc', Hc, <- app_assoc. done.
Qed.

Lemma run_lines trace :
  forall q,
    exists ts lines,
      firings (run host trace q) = firings q ++ ts /\
      console (run host trace q) = console q ++ lines /\
      Forall2 reloadLineAt ts lines.
Proof.
  induction trace as [|[t i] trace IH]; intros q.
  { exists [], []. simpl. by rewrite !app_nil_r. }
  change (run host ((t, i) :: trace) q) with (run host trace (step host q (t, i))).
  destruct (fires_lines (filter (isDue t) (timers q)) q) as (ts1 & l1 & Hf1 & Hc1 & H1).
  destruct (handle_quiet i (advance host t q)) as (q1 & Hh & _ & _ & _ & Hcq & Hjq).
  assert (step host q (t, i) = q1) as -> by (unfold step; simpl; by rewrite Hh).
  destruct (IH q1) as (ts2 & l2 & Hf2 & Hc2 & H2).
  exists (ts1 ++ ts2), (l1 ++ l2). split; [|split; [|by apply Forall2_app]].
  - rewrite Hf2. unfold firings at 1. rewrite Hjq.
    change (omap firedAt (journal (advance host t q))) with (firings (advance host t q)).
    unfold advance. unfold firings at 1. simpl.
    change (omap firedAt (journal ?x)) with (firings x).
    rewrite Hf1, <- app_assoc. done.
  - rewrite Hc2, Hcq. unfold advance. simpl. rewrite Hc1, <- app_assoc. done.
Qed.

End LoopInvariants.

(** X8. In every state the program reaches, from start-up on and whatever
    happens to the files, at most one timeout is armed; it is the one
    [reloadTimer] holds and it comes due within the next 500ms. *)
Theorem pending_reload_is_due_soon (host : Host) t0 files trace T :
  let q := advance host T (run host trace (bootstrap host (initial t0 files)).2) in
  (List.length (timers q) <= 1)%nat /\
  forall h d, (h, d) ∈ timers q ->
    reloadTimer q = Some h /\ clock q < d <= clock q + 500.
Proof.
  cbv zeta.
  assert (DueSoon (advance host T (run host trace (bootstrap host (initial t0 files)).2)))
    as [Hidle|(d & (h & Ht & Hr) & Hd)].
  { apply advance_DueSoon, run_DueSoon. left. by apply bootstrap_idle. }
  - rewrite Hidle. split; [simpl; lia|]. intros h d Hin. by apply elem_of_nil in Hin.
  - rewrite Ht. split; [simpl; lia|]. intros h' d' Hin.
    apply list_elem_of_singleton in Hin. injection Hin as -> ->. done.
Qed.

(** X9. The two callbacks of the hot-reload pipeline never throw and
    never exit: the [fs.watch] listener [scheduleReload] always completes
    normally, and so does the timeout callback, whatever the files hold and
    whatever the TLS stack answers; the timeout callback leaves the watches
    and the timers alone. (The signal handlers of lines 44-52, which do
    exit, are not part of this.) *)
Theorem reload_callbacks_never_throw (host : Host) :
  (forall i q, (handle i q).1 = Normal tt) /\
  (forall q, (scheduleReload q).1 = Normal tt) /\
  (forall q, (reload host q).1 = Normal tt /\
             watchers (reload host q).2 = watchers q /\
             timers (reload host q).2 = timers q /\
             reloadTimer (reload host q).2 = reloadTimer q) /\
  (forall h d q, (fire host h d q).1 = Normal tt).
Proof.
  split; [|split; [|split]].
  - intros i q. by destruct (handle_quiet i q) as (q' & -> & _).
  - intros q. by destruct (scheduleReload_quiet q) as (q' & -> & _).
  - intros q. by destruct (reload_block host q) as (blk & line & _ & _ & ->).
  - intros h d q. rewrite fire_eq.
    by destruct (reload_block host (dueState h d q)) as (blk & line & _ & _ & ->).
Qed.

(** X10. Along any run, each time the timeout callback runs exactly one
    line is added to the console and nothing else ever writes there: the
    new lines correspond one to one, in order, to the new callback runs,
    and each is either the failure line or the success line stamped with
    the time at which that callback ran. *)
Theorem one_line_per_attempt (host : Host) (p : Process) trace T :
  let q := advance host T (run host trace p) in
  exists ts lines,
    firings q = firings p ++ ts /\
    console q = console p ++ lines /\
    Forall2 reloadLineAt ts lines.
Proof.
  cbv zeta. destruct (run_lines host trace p) as (ts1 & l1 & Hf1 & Hc1 & H1).
  destruct (fires_lines host (filter (isDue T) (timers (run host trace p)))
              (run host trace p)) as (ts2 & l2 & Hf2 & Hc2 & H2).
  exists (ts1 ++ ts2), (l1 ++ l2). split; [|split; [|by apply Forall2_app]].
  - unfold advance. unfold firings at 1. simpl.
    change (omap firedAt (journal ?x)) with (firings x).
    rewrite Hf2, Hf1, <- app_assoc. done.
  - unfold advance. simpl. rewrite Hc2, Hc1, <- app_assoc. done.
Qed.

(** ** What a reload reads (lines 80-89) *)

Lemma AttemptFails_fs (host : Host) p q e evs :
  fs q = fs p -> AttemptFails host p e evs -> AttemptFails host q e evs.
Proof.
  intros Hfs Hf. destruct Hf as [e Hk|k e Hk Hc|k c e Hk Hc Hr]; rewrite <- Hfs in *;
    [by apply KeyReadFails|by apply CertReadFails|by apply InstallFails].
Qed.

(** X12. Rotation after start-up. Once a secure start-up watches both
    files, writing a new key and then a new cert less than 500ms later
    leads to exactly one reload, 500ms after the second write, which calls
    [setSecureContext] with the new pair: the listener holds the new pair if
    the TLS stack accepts it and the start-up pair otherwise, and the
    console gains one line. *)
Theorem rotation_after_startup (host : Host) t0 files port k0 c0 addr
        (t1 t2 T : Z) (k1 c1 : Buffer) :
  StartsWatching host files port k0 c0 addr ->
  t0 <= t1 ->
  t1 <= t2 < t1 + 500 ->
  t2 + 500 <= T ->
  let p := (bootstrap host (initial t0 files)).2 in
  let q := advance host T
             (run host [(t1, FsWrite (keyPath host) (Some (Readable k1)));
                        (t2, FsWrite (certPath host) (Some (Readable c1)))] p) in
  firings q = [t2 + 500] /\
  server q = installOutcome host k1 c1 (Https k0 c0) /\
  console q = [listeningLine addr; watchingLine; attemptLine host k1 c1 (t2 + 500)] /\
  fs q = <[certPath host := Readable c1]> (<[keyPath host := Readable k1]> files).
Proof.
  intros Hst Ht1 Ht2 HT. cbv zeta.
  rewrite (bootstrap_watching host t0 files port k0 c0 addr Hst). cbn [fst snd].
  set (p := watching host t0 files k0 c0 addr).
  set (tr := [(t1, FsWrite (keyPath host) (Some (Readable k1)));
              (t2, FsWrite (certPath host) (Some (Readable c1)))]).
  pose proof (paths_differ host) as Hne.
  destruct (burst_settles host p t1 (FsWrite (keyPath host) (Some (Readable k1)))
              [(t2, FsWrite (certPath host) (Some (Readable c1)))])
    as (Ha & Hcl & Hfs & Hs & Hco & Hj & _).
  { done. } { exact Ht1. }
  { apply Forall_cons_2; [|apply Forall_cons_2; [|apply Forall_nil_2]];
      apply list_elem_of_In; simpl; tauto. }
  { simpl. split; [exact Ht2|done]. }
  fold tr in Ha, Hcl, Hfs, Hs, Hco, Hj.
  cbn [fmap list_fmap last from_option fst id] in Ha, Hcl.
  assert (fs (run host tr p)
          = <[certPath host := Readable c1]> (<[keyPath host := Readable k1]> files))
    as Hfs' by (rewrite Hfs; reflexivity).
  destruct (advance_outcome host T (run host tr p) (t2 + 500) k1 c1)
    as ((h & Hjq) & Hsq & Hcq & _ & _ & Hfq & _); [done|lia|done| | |].
  { rewrite Hfs'. unfold readResult.
    by rewrite lookup_insert_ne, lookup_insert_eq by done. }
  { rewrite Hfs'. unfold readResult. by rewrite lookup_insert_eq. }
  split; [unfold firings; by rewrite Hjq, Hj|].
  split; [by rewrite Hsq, Hs|]. split; [by rewrite Hcq, Hco|]. by rewrite Hfq, Hfs'.
Qed.

Lemma rotation_after_startup_witness :
  server (advance tlsHost 2000 (run tlsHost rotation running))
    = Https (B "KEY-1") (B "CERT-1") /\
  firings (advance tlsHost 2000 (run tlsHost rotation running)) = [1800].
Proof.
  destruct (rotation_after_startup tlsHost 0 files0 "3334" (B "KEY-0") (B "CERT-0")
              "https://0.0.0.0:3334" 1000 1300 2000 (B "KEY-1") (B "CERT-1"))
    as (Hf & Hs & _).
  - repeat split; by vm_compute.
  - vm_compute. discriminate.
  - vm_compute. split; [discriminate|reflexivity].
  - vm_compute. discriminate.
  - split; [exact Hs|exact Hf].
Defined.

(** X13. A reload always reads both files, whichever was written: when
    only the key is replaced after start-up, the reload 500ms later calls
    [setSecureContext] with the new key and the cert as it is on disk, the
    start-up cert, so a rotation whose second write comes more than 500ms
    after the first passes through a mixed pair; the same with only the
    cert replaced. *)
Theorem single_write_pairs_with_the_other_file (host : Host) t0 files port k0 c0 addr
        (t1 T : Z) (k1 c1 : Buffer) :
  StartsWatching host files port k0 c0 addr ->
  t0 <= t1 ->
  t1 + 500 <= T ->
  let p := (bootstrap host (initial t0 files)).2 in
  let qk := advance host T (run host [(t1, FsWrite (keyPath host) (Some (Readable k1)))] p) in
  let qc := advance host T (run host [(t1, FsWrite (certPath host) (Some (Readable c1)))] p) in
  (server qk = installOutcome host k1 c0 (Https k0 c0) /\
   installEntry host k1 c0 ∈ journal qk) /\
  (server qc = installOutcome host k0 c1 (Https k0 c0) /\
   installEntry host k0 c1 ∈ journal qc).
Proof.
  intros Hst Ht1 HT. cbv zeta.
  rewrite (bootstrap_watching host t0 files port k0 c0 addr Hst). cbn [fst snd].
  set (p := watching host t0 files k0 c0 addr).
  pose proof (paths_differ host) as Hne.
  destruct Hst as (_ & _ & _ & Hk0 & Hc0 & _).
  split.
  - destruct (burst_settles host p t1 (FsWrite (keyPath host) (Some (Readable k1))) [])
      as (Ha & Hcl & Hfs & Hs & _ & _ & _);
      [done|exact Ht1| |done|];
      [apply Forall_cons_2; [apply list_elem_of_In; simpl; tauto|apply Forall_nil_2]|].
    cbn [fmap list_fmap last from_option fst id] in Ha, Hcl.
    assert (fs (run host [(t1, FsWrite (keyPath host) (Some (Readable k1)))] p)
            = <[keyPath host := Readable k1]> files) as Hfs' by (rewrite Hfs; reflexivity).
    clear Hfs. rename Hfs' into Hfs.
    destruct (advance_outcome host T
                (run host [(t1, FsWrite (keyPath host) (Some (Readable k1)))] p)
                (t1 + 500) k1 c0)
      as ((h & Hjq) & Hsq & _); [done|lia|done| | |].
    { rewrite Hfs. unfold readResult. by rewrite lookup_insert_eq. }
    { rewrite Hfs. unfold readResult in *. by rewrite lookup_insert_ne. }
    split; [by rewrite Hsq, Hs|]. rewrite Hjq. apply elem_of_app. right.
    do 3 right. left.
  - destruct (burst_settles host p t1 (FsWrite (certPath host) (Some (Readable c1))) [])
      as (Ha & Hcl & Hfs & Hs & _ & _ & _);
      [done|exact Ht1| |done|];
      [apply Forall_cons_2; [apply list_elem_of_In; simpl; tauto|apply Forall_nil_2]|].
    cbn [fmap list_fmap last from_option fst id] in Ha, Hcl.
    assert (fs (run host [(t1, FsWrite (certPath host) (Some (Readable c1)))] p)
            = <[certPath host := Readable c1]> files) as Hfs' by (rewrite Hfs; reflexivity).
    clear Hfs. rename Hfs' into Hfs.
    destruct (advance_outcome host T
                (run host [(t1, FsWrite (certPath host) (Some (Readable c1)))] p)
                (t1 + 500) k0 c1)
      as ((h & Hjq) & Hsq & _); [done|lia|done| | |].
    { rewrite Hfs. unfold readResult in *. by rewrite lookup_insert_ne. }
    { rewrite Hfs. unfold readResult. by rewrite lookup_insert_eq. }
    split; [by rewrite Hsq, Hs|]. rewrite Hjq. apply elem_of_app. right.
    do 3 right. left.
Qed.

Lemma single_write_pairs_with_the_other_file_witness :
  server (advance tlsHost 2000
            (run tlsHost [(1000, FsWrite keyFile (Some (Readable (B "KEY-1"))))] running))
    = Https (B "KEY-1") (B "CERT-0").
Proof.
  destruct (single_write_pairs_with_the_other_file tlsHost 0 files0 "3334"
              (B "KEY-0") (B "CERT-0") "https://0.0.0.0:3334" 1000 2000
              (B "KEY-1") (B "CERT-1"))
    as ((Hs & _) & _).
  - repeat split; by vm_compute.
  - vm_compute. discriminate.
  - vm_compute. discriminate.
  - exact Hs.
Defined.

(** X14. No retry. When the reload that follows a notification fails, the
    error is logged once and that is all: the listener keeps its pair, no
    timeout is left armed, and however long the process then waits no
    further attempt is made until the next notification. *)
Theorem failed_reload_is_not_retried (host : Host) (p : Process) (t1 : Z) (path : string)
        (e : Error) (evs : list Event) (T : Z) :
  timers p = [] ->
  clock p <= t1 ->
  path ∈ watchers p ->
  AttemptFails host p e evs ->
  t1 + 500 <= T ->
  let q := advance host T (run host [(t1, FsNotify path)] p) in
  firings q = firings p ++ [t1 + 500] /\
  server q = server p /\
  console q = console p ++ [failureLine e] /\
  timers q = [] /\
  forall T', firings (advance host T' q) = firings q /\
             console (advance host T' q) = console q.
Proof.
  intros Hidle Hclk Hw Hf HT. cbv zeta.
  destruct (burst_settles host p t1 (FsNotify path) [])
    as (Ha & Hcl & Hfs & Hs & Hco & Hj & _); [done|done|by apply Forall_cons_2; [|apply Forall_nil_2]|done|].
  cbn [fmap list_fmap last from_option fst id] in Ha, Hcl.
  assert (fs (run host [(t1, FsNotify path)] p) = fs p) as Hfs' by (rewrite Hfs; reflexivity).
  destruct (advance_failure host T (run host [(t1, FsNotify path)] p) (t1 + 500) e evs)
    as ((h & Hjq) & Hsq & Hcq & Htq & _); [done|lia|done|by apply (AttemptFails_fs host p)|].
  assert (omap firedAt evs = []) as Hev by (by destruct Hf).
  split.
  { unfold firings. rewrite Hjq, Hj.
    change (Fired h (t1 + 500) :: evs) with ([Fired h (t1 + 500)] ++ evs).
    by rewrite !omap_app, Hev. }
  split; [by rewrite Hsq, Hs|]. split; [by rewrite Hcq, Hco|]. split; [done|].
  intros T'. by rewrite advance_idle.
Qed.

Lemma failed_reload_is_not_retried_witness :
  firings (advance tlsHost 9000 (run tlsHost [(1000, FsNotify certFile)] certGone))
    = [1500] /\
  server (advance tlsHost 9000 (run tlsHost [(1000, FsNotify certFile)] certGone))
    = Https (B "KEY-0") (B "CERT-0").
Proof.
  destruct (failed_reload_is_not_retried tlsHost certGone 1000 certFile (ENOENT certFile) _
              9000 ltac:(reflexivity) ltac:(vm_compute; discriminate)
              ltac:(vm_compute; repeat constructor)
              (CertReadFails tlsHost certGone (B "KEY-0") (ENOENT certFile)
                 ltac:(by vm_compute) ltac:(by vm_compute))
              ltac:(vm_compute; discriminate))
    as (Hf & Hs & _).
  split; [exact Hf|exact Hs].
Defined.

(** ** Reloads are never spontaneous *)

Section Causes.

Context (host : Host) (Good : Z -> Prop).

Lemma advance_PendingAt t q :
  PendingAt Good q -> clock q <= t ->
  let q' := advance host t q in
  PendingAt Good q' /\ clock q' = t /\ watchers q' = watchers q /\
  (forall ts, ts ∈ firings q' -> ts ∈ firings q \/ Good ts).
Proof.
  intros [Hidle|(d & Ha & Hd & Hg)] Hclk; cbv zeta.
  - rewrite advance_idle by done. simpl. split; [by left|]. split; [lia|].
    split; [done|]. intros ts Hin. by left.
  - destruct (Z_lt_le_dec t d) as [Hlt|Hle].
    + destruct Ha as (h & Ht & Hr). rewrite (advance_not_due host t q h d) by done.
      simpl. split; [right; exists d; split; [by exists h|split; [simpl; lia|done]]|].
      split; [lia|]. split; [done|]. intros ts Hin. by left.
    + destruct (advance_fires host t q d Ha) as (Ht & Hc & Hw & Hf & _); [lia|done|].
      split; [by left|]. split; [done|]. split; [done|].
      intros ts Hin. rewrite Hf in Hin. apply elem_of_app in Hin as [Hin|Hin]; [by left|].
      apply list_elem_of_singleton in Hin. subst ts. by right.
Qed.

Lemma step_PendingAt t i q :
  PendingAt Good q -> clock q <= t ->
  (inputPath i ∈ watchers q -> Good (t + 500)) ->
  let q' := step host q (t, i) in
  PendingAt Good q' /\ clock q' = t /\ watchers q' = watchers q /\
  (forall ts, ts ∈ firings q' -> ts ∈ firings q \/ Good ts).
Proof.
  intros Hq Hclk Hg. cbv zeta. unfold step. simpl.
  destruct (advance_PendingAt t q Hq Hclk) as (Hp & Hc & Hw & Hf).
  assert (Owned (advance host t q)) as Hown.
  { destruct Hp as [?|(d & ? & _)]; [by apply idle_Owned|by apply (armedAt_Owned d)]. }
  destruct (handle_spec i (advance host t q) Hown)
    as (q' & -> & (Hc' & _ & Hw' & _ & Hj') & _ & Hin & Hnin). simpl.
  split; [|split; [congruence|split; [congruence|]]].
  - destruct (decide (inputPath i ∈ watchers (advance host t q))) as [Hwi|Hwi].
    + right. exists (clock (advance host t q) + 500). split; [by apply Hin|].
      split; [lia|]. rewrite Hc. apply Hg. by rewrite <- Hw.
    + destruct (Hnin Hwi) as [Ht Hr]. destruct Hp as [Hidle|(d & (h & Htq & Hrq) & Hd & Hgd)].
      * left. congruence.
      * right. exists d. split; [exists h; split; congruence|]. split; [lia|done].
  - intros ts Hts. apply Hf. unfold firings in *. by rewrite <- Hj'.
Qed.

Lemma run_PendingAt trace :
  forall q,
    PendingAt Good q -> ascending (clock q) trace.*1 ->
    (forall t i, (t, i) ∈ trace -> inputPath i ∈ watchers q -> Good (t + 500)) ->
    let q' := run host trace q in
    PendingAt Good q' /\
    (forall ts, ts ∈ firings q' -> ts ∈ firings q \/ Good ts).
Proof.
  induction trace as [|[t i] trace IH]; intros q Hq Hasc Hg.
  { simpl. split; [done|]. intros ts Hin. by left. }
  change (run host ((t, i) :: trace) q) with (run host trace (step host q (t, i))).
  simpl in Hasc. destruct Hasc as [Hclk Hasc].
  destruct (step_PendingAt t i q Hq Hclk) as (Hp & Hc & Hw & Hf).
  { intros Hwi. apply (Hg t i); [left|done]. }
  destruct (IH (step host q (t, i)) Hp) as (Hp' & Hf').
  { by rewrite Hc. }
  { intros t' i' Hin Hwi. apply (Hg t' i'); [by right|]. by rewrite <- Hw. }
  cbv zeta. split; [done|]. intros ts Hts.
  destruct (Hf' ts Hts) as [Hin|?]; [|by right]. by apply Hf.
Qed.

End Causes.

(** X15. No reload is spontaneous. From an idle process and with inputs
    in time order, every run of the reload callback happens exactly 500ms
    after some input on a watched path: without such a signal no file is
    ever re-read and nothing is installed, however long the process runs. *)
Theorem reloads_follow_signals (host : Host) (p : Process)
        (trace : list (Z * Input)) (T : Z) (ts : Z) :
  timers p = [] ->
  ascending (clock p) trace.*1 ->
  ts ∈ firings (advance host T (run host trace p)) ->
  ts ∈ firings p \/
  exists t i, (t, i) ∈ trace /\ inputPath i ∈ watchers p /\ ts = t + 500.
Proof.
  intros Hidle Hasc Hts.
  set (Good := fun ts : Z =>
         exists t i, (t, i) ∈ trace /\ inputPath i ∈ watchers p /\ ts = t + 500).
  destruct (run_PendingAt host Good trace p) as (Hp & Hf); [by left|done| |].
  { intros t i Hin Hw. by exists t, i. }
  destruct Hp as [Hidle'|(d & Ha & Hd & Hg)].
  - rewrite advance_idle in Hts by done. by apply Hf.
  - destruct (Z_lt_le_dec T d) as [Hlt|Hle].
    + destruct (advance_waits host T _ d Ha Hlt) as [Hj _].
      apply Hf. unfold firings in *. by rewrite <- Hj.
    + destruct (advance_fires host T _ d Ha) as (_ & _ & _ & Hfire & _); [lia|done|].
      rewrite Hfire in Hts. apply elem_of_app in Hts as [Hin|Hin]; [by apply Hf|].
      apply list_elem_of_singleton in Hin. subst ts. by right.
Qed.

Lemma reloads_follow_signals_witness :
  1800 ∈ firings running \/
  exists t i, (t, i) ∈ rotation /\ inputPath i ∈ watchers running /\ 1800 = t + 500.
Proof.
  apply (reloads_follow_signals tlsHost running rotation 2000 1800).
  - reflexivity.
  - vm_compute. repeat split; discriminate.
  - vm_compute. constructor.
Defined.
